(** * pymc/func_utils.py: [find_optim_prior]

    A shallow embedding of [find_optim_prior] and the properties of its
    control flow, of the residual it hands to the solver, and of the
    dictionaries it builds.

    Python floats are IEEE binary64 numbers: Rocq's primitive floats.  The
    Python heap holds the dictionaries, so that aliasing and in-place
    updates ([dict.update]) are visible.  The collaborators that are not part
    of this module (the distribution family, Aesara's compiler and gradient,
    SciPy's [least_squares]) are records of functions whose calls are logged
    in a trace. *)

From Stdlib Require Import Floats ZArith.
From stdpp Require Import base list strings.

Set Warnings "-inexact-float,-register-all".
Local Open Scope string_scope.
Local Open Scope list_scope.

(** ** Exceptions and results *)

(** The exception classes the module raises or can meet.  All of them derive
    from [Exception]; an exception of another class is [OtherError] with the
    name of its class. *)
Inductive exn : Type :=
| AssertionError
| NotImplementedError (msg : string)
| AttributeError (msg : string)
| ValueError (msg : string)
| TypeError (msg : string)
| IndexError (msg : string)
| SystemError (msg : string)
| OtherError (cls msg : string).

Inductive result (A : Type) : Type :=
| Ok (a : A)
| Err (e : exn).
Arguments Ok {A} a.
Arguments Err {A} e.

Definition is_AttributeError (e : exn) : bool :=
  match e with AttributeError _ => true | _ => false end.

(** ** Aesara graphs *)

(** The scalar expressions the function builds over its single symbolic input
    [dist_params = aet.vector("dist_params")].  A log-CDF node keeps the
    family's numeric log-CDF at the query point and the keyword arguments the
    distribution was built with. *)
Inductive tensor : Type :=
| Constant (c : float)
| Subtensor (i : nat)
| LogcdfOp (value : float) (cdf : list (string * float) -> float)
           (kwargs : list (string * tensor))
| ExpOp (t : tensor)
| SubOp (a b : tensor).

(** A Python value stored in a dictionary: a float or a symbolic scalar. *)
Inductive pyval : Type :=
| PyFloat (v : float)
| PyTensor (t : tensor).

(** [aet.as_tensor_variable]: a float becomes a constant of the graph. *)
Definition as_tensor_variable (v : pyval) : tensor :=
  match v with
  | PyFloat c => Constant c
  | PyTensor t => t
  end.

Section Eval.
(** [pm.math.exp] on a scalar. *)
Variable math_exp : float -> float.

(** Running a compiled graph on the input vector [x].  [dist_params[i]]
    raises [IndexError] when [x] is too short. *)
Fixpoint eval (x : list float) (t : tensor) : result float :=
  match t with
  | Constant c => Ok c
  | Subtensor i =>
      match x !! i with
      | Some v => Ok v
      | None => Err (IndexError "index out of bounds")
      end
  | LogcdfOp _ cdf kwargs =>
      let fix eval_kwargs (kw : list (string * tensor)) :
          result (list (string * float)) :=
        match kw with
        | [] => Ok []
        | (k, a) :: kw' =>
            match eval x a with
            | Ok v =>
                match eval_kwargs kw' with
                | Ok vs => Ok ((k, v) :: vs)
                | Err e => Err e
                end
            | Err e => Err e
            end
        end in
      match eval_kwargs kwargs with
      | Ok vs => Ok (cdf vs)
      | Err e => Err e
      end
  | ExpOp a =>
      match eval x a with
      | Ok v => Ok (math_exp v)
      | Err e => Err e
      end
  | SubOp a b =>
      match eval x a with
      | Ok v =>
          match eval x b with
          | Ok w => Ok (v - w)%float
          | Err e => Err e
          end
      | Err e => Err e
      end
  end.

(** The evaluation of the keyword arguments of a log-CDF node. *)
Fixpoint eval_kwargs (x : list float) (kw : list (string * tensor)) :
    result (list (string * float)) :=
  match kw with
  | [] => Ok []
  | (k, a) :: kw' =>
      match eval x a with
      | Ok v =>
          match eval_kwargs x kw' with
          | Ok vs => Ok ((k, v) :: vs)
          | Err e => Err e
          end
      | Err e => Err e
      end
  end.
End Eval.

Arguments eval math_exp x t : simpl never.

(** ** Dictionaries *)

(** A Python [dict] is the list of its items: keys in insertion order, each
    key once. *)

(** [d[k] = v]: the value of an existing key is replaced where it stands, a
    new key goes to the end. *)
Fixpoint dict_setitem {V : Type} (k : string) (v : V) (d : list (string * V)) :
    list (string * V) :=
  match d with
  | [] => [(k, v)]
  | (k', v') :: d' =>
      if String.eqb k k' then (k', v) :: d' else (k', v') :: dict_setitem k v d'
  end.

Fixpoint dict_get {V : Type} (k : string) (d : list (string * V)) : option V :=
  match d with
  | [] => None
  | (k', v) :: d' => if String.eqb k k' then Some v else dict_get k d'
  end.

Definition dict_keys {V : Type} (d : list (string * V)) : list string := d.*1.
Definition dict_values {V : Type} (d : list (string * V)) : list V := d.*2.

(** [d.update(other)] on the contents. *)
Definition dict_merge {V : Type} (d other : list (string * V)) :
    list (string * V) :=
  fold_left (fun acc kv => dict_setitem kv.1 kv.2 acc) other d.

(** A dict comprehension [{k: v for k, v in items}]. *)
Definition dict_comprehension {V : Type} (items : list (string * V)) :
    list (string * V) :=
  dict_merge [] items.

(** The dictionaries of the heap hold floats and symbolic scalars. *)
Definition pydict : Type := list (string * pyval).

(** A [Dict[str, float]] as a heap object. *)
Definition float_dict (d : list (string * float)) : pydict :=
  map (fun kv => (kv.1, PyFloat kv.2)) d.

(** ** The collaborators *)

(** The distribution family [pm_dist]. *)
Record Distribution : Type := {
  (** [str(pm_dist)], as the f-string of the error message shows it *)
  dist_str : string;
  (** [pm_dist.rv_op.ndims_params] *)
  ndims_params : list Z;
  (** [pm_dist.dist] called with keyword arguments: it binds them by name and
      raises when it does not accept them *)
  dist_signature : list string -> result unit;
  (** [pm.logcdf(rv, value)]: the family's log-CDF at [value] as a function of
      the parameter assignment, or the exception the call raises (the
      dispatch raises [NotImplementedError] for a family that has no
      [logcdf] method) *)
  logcdf : float -> result (list (string * float) -> float)
}.

(** The second argument of the solver: a callable or the string ["2-point"]. *)
Inductive jacobian : Type :=
| JacCallable (jac : list float -> result (list float))
| Jac2Point.

(** [scipy.optimize.OptimizeResult], the two fields that are read. *)
Record OptimizeResult : Type := {
  opt_x : list float;
  opt_success : bool
}.

(** Aesara, PyMC's gradient and SciPy. *)
Record Backend : Type := {
  (** [pm.math.exp] on a scalar *)
  math_exp : float -> float;
  (** [aesara.function([dist_params], output)]: the compilation can raise, the
      compiled callable runs the graph (see [aesara_function]) *)
  function_compile : tensor -> result unit;
  (** [pm.gradient(cdf_error, [dist_params])] compiled by [aesara.function] *)
  gradient : tensor -> result (list float -> result (list float));
  (** [optimize.least_squares(fun, x0=..., jac=...)] *)
  least_squares :
    (list float -> result float) -> list pyval -> jacobian ->
    result OptimizeResult
}.

(** ** The heap, the trace and the monad of statements *)

Definition loc : Type := nat.

(** What the function does to the outside world, in order. *)
Inductive event : Type :=
| EvDist (kwargs : list (string * tensor))
| EvLogcdf (value : float)
| EvFunction (output : tensor)
| EvGradient (cost : tensor)
| EvLeastSquares (f : list float -> result float) (x0 : list pyval)
                 (jac : jacobian)
| EvWarn (mass_in_interval lower upper mass : float).

Record state : Type := State {
  heap : list pydict;
  trace : list event
}.

Definition M (A : Type) : Type := state -> result A * state.

Definition ret {A : Type} (a : A) : M A := fun s => (Ok a, s).

Definition raise {A : Type} (e : exn) : M A := fun s => (Err e, s).

Definition bind {A B : Type} (m : M A) (k : A -> M B) : M B :=
  fun s =>
    match m s with
    | (Ok a, s') => k a s'
    | (Err e, s') => (Err e, s')
    end.

Notation "x <- m ;; k" := (bind m (fun x => k))
  (at level 100, m at next level, right associativity).
Notation "m ;;; k" := (bind m (fun _ => k))
  (at level 100, right associativity).

(** [try: body except ...: handler]; the handler says which exceptions it
    catches. *)
Definition try_except {A : Type} (body : M A) (handler : exn -> option (M A)) :
    M A :=
  fun s =>
    match body s with
    | (Ok a, s') => (Ok a, s')
    | (Err e, s') =>
        match handler e with
        | Some h => h s'
        | None => (Err e, s')
        end
    end.

(** A call to a collaborator: logged, then its result or its exception. *)
Definition extern {A : Type} (ev : event) (r : result A) : M A :=
  fun s => (r, {| heap := heap s; trace := trace s ++ [ev] |}).

(** Reading the dictionary behind a reference. *)
Definition deref (l : loc) : M pydict :=
  fun s =>
    match heap s !! l with
    | Some d => (Ok d, s)
    | None => (Err (SystemError "dangling reference"), s)
    end.

(** A new dictionary object. *)
Definition alloc (d : pydict) : M loc :=
  fun s => (Ok (length (heap s)),
            {| heap := heap s ++ [d]; trace := trace s |}).

(** [target.update(other)], in place. *)
Definition dict_update (target other : loc) : M unit :=
  d <- deref target ;;
  o <- deref other ;;
  fun s => (Ok tt, {| heap := <[target := dict_merge d o]> (heap s);
                      trace := trace s |}).

(** [assert cond] *)
Definition py_assert (cond : bool) : M unit :=
  if cond then ret tt else raise AssertionError.

(** ** Calls to the collaborators *)

(** [pm.floatX]: a cast to [aesara.config.floatX], which is float64 unless
    the configuration was changed; the identity on a Python float. *)
Definition floatX (v : float) : float := v.

(** [pm_dist.dist] applied to the unpacked dictionary [params]: the random
    variable over the keyword arguments, each turned into a graph. *)
Definition dist (pm_dist : Distribution) (params : loc) :
    M (list (string * tensor)) :=
  d <- deref params ;;
  let kwargs := map (fun kv => (kv.1, as_tensor_variable kv.2)) d in
  extern (EvDist kwargs)
    match dist_signature pm_dist (dict_keys d) with
    | Ok _ => Ok kwargs
    | Err e => Err e
    end.

(** [pm.logcdf(rv, value)] *)
Definition pm_logcdf (pm_dist : Distribution) (rv : list (string * tensor))
    (value : float) : M tensor :=
  extern (EvLogcdf value)
    match logcdf pm_dist value with
    | Ok cdf => Ok (LogcdfOp value cdf rv)
    | Err e => Err e
    end.

(** [aesara.function([dist_params], output, allow_input_downcast=True)].
    The callable is taken to run the graph as line 102 builds it.  Aesara's
    rewrites may reorder the floating-point operations of the compiled
    function, so a value of the real callable can differ from this one in
    the last digits; nothing below compares the callable with the
    re-evaluation of lines 126-129 bit for bit. *)
Definition aesara_function (B : Backend) (output : tensor) :
    M (list float -> result float) :=
  extern (EvFunction output)
    match function_compile B output with
    | Ok _ => Ok (fun x => eval (math_exp B) x output)
    | Err e => Err e
    end.

(** [t.eval()] of a graph without inputs. *)
Definition tensor_eval (B : Backend) (t : tensor) : M float :=
  fun s => (eval (math_exp B) [] t, s).

(** [warnings.warn(...)] with the numbers the message is formatted from. *)
Definition warn (mass_in_interval lower upper mass : float) : M unit :=
  extern (EvWarn mass_in_interval lower upper mass) (Ok tt).

(** ** The messages *)

Definition nl : string := String (Ascii.ascii_of_nat 10) EmptyString.

Definition non_scalar_message : string :=
  "`pm.find_optim_prior` does not work with non-scalar parameters yet."
  +:+ nl +:+
  "Feel free to open a pull request on PyMC repo if you really need this feature.".

Definition no_logcdf_message (pm_dist : Distribution) : string :=
  "You cannot use `find_optim_prior` with " +:+ dist_str pm_dist +:+
  " -- it doesn't have a logcdf method yet." +:+ nl +:+
  "Open an issue or, even better, a pull request on PyMC repo if you really need it.".

Definition optimization_failed_message : string :=
  "Optimization of parameters failed.".

(** ** [find_optim_prior] *)

(** [np.any(np.asarray(pm_dist.rv_op.ndims_params) != 0)] *)
Definition any_non_scalar (pm_dist : Distribution) : bool :=
  existsb (fun n => negb (n =? 0)%Z) (ndims_params pm_dist).

Definition find_optim_prior (B : Backend) (pm_dist : Distribution)
    (lower upper : float) (init_guess : loc) (mass : float)
    (fixed_params : option loc) : M loc :=
  (* assert 0.01 < mass < 0.99 *)
  py_assert ((0.01 <? mass)%float && (mass <? 0.99)%float) ;;;
  (* exit when any parameter is not scalar *)
  (if any_non_scalar pm_dist
   then raise (NotImplementedError non_scalar_message)
   else ret tt) ;;;
  (* params_to_optim = {arg_name: dist_params[i] for arg_name, i in
       zip(init_guess.keys(), range(len(init_guess)))} *)
  guess <- deref init_guess ;;
  params_to_optim <-
    alloc (dict_comprehension
             (zip (dict_keys guess)
                  (map (fun i => PyTensor (Subtensor i))
                       (seq 0 (length guess))))) ;;
  (* if fixed_params is not None: params_to_optim.update(fixed_params) *)
  match fixed_params with
  | Some fixed => dict_update params_to_optim fixed
  | None => ret tt
  end ;;;
  dist_ <- dist pm_dist params_to_optim ;;
  (* try: ... except AttributeError: raise AttributeError(...) *)
  logcdfs <-
    try_except
      (logcdf_lower <- pm_logcdf pm_dist dist_ (floatX lower) ;;
       logcdf_upper <- pm_logcdf pm_dist dist_ (floatX upper) ;;
       ret (logcdf_lower, logcdf_upper))
      (fun e =>
         if is_AttributeError e
         then Some (raise (AttributeError (no_logcdf_message pm_dist)))
         else None) ;;
  let '(logcdf_lower, logcdf_upper) := logcdfs in
  (* cdf_error = (pm.math.exp(logcdf_upper) - pm.math.exp(logcdf_lower)) - mass *)
  let cdf_error :=
    SubOp (SubOp (ExpOp logcdf_upper) (ExpOp logcdf_lower)) (Constant mass) in
  cdf_error_fn <- aesara_function B cdf_error ;;
  (* try: ... except Exception: jac = "2-point" *)
  jac <-
    try_except
      (jac <- extern (EvGradient cdf_error) (gradient B cdf_error) ;;
       ret (JacCallable jac))
      (* when PyMC cannot compute the gradient *)
      (fun _ => Some (ret Jac2Point)) ;;
  (* opt = optimize.least_squares(cdf_error_fn,
       x0=list(init_guess.values()), jac=jac) *)
  guess <- deref init_guess ;;
  let x0 := dict_values guess in
  opt <- extern (EvLeastSquares cdf_error_fn x0 jac)
           (least_squares B cdf_error_fn x0 jac) ;;
  (* if not opt.success: raise ValueError(...) *)
  (if negb (opt_success opt)
   then raise (ValueError optimization_failed_message)
   else ret tt) ;;;
  (* save optimal parameters *)
  guess <- deref init_guess ;;
  opt_params <-
    alloc (dict_comprehension
             (zip (dict_keys guess) (map PyFloat (opt_x opt)))) ;;
  match fixed_params with
  | Some fixed => dict_update opt_params fixed
  | None => ret tt
  end ;;;
  (* check mass in interval is not too far from `mass` *)
  opt_dist <- dist pm_dist opt_params ;;
  logcdf_upper <- pm_logcdf pm_dist opt_dist upper ;;
  logcdf_lower <- pm_logcdf pm_dist opt_dist lower ;;
  mass_in_interval <-
    tensor_eval B (SubOp (ExpOp logcdf_upper) (ExpOp logcdf_lower)) ;;
  (* if (np.abs(mass_in_interval - mass)) >= 0.01: warnings.warn(...) *)
  (if (0.01 <=? abs (mass_in_interval - mass))%float
   then warn mass_in_interval lower upper mass
   else ret tt) ;;;
  ret opt_params.

(** ** Observing a call *)

(** A call from a heap [h], with nothing logged yet: the result or the
    exception, and the final heap and trace. *)
Definition call {A : Type} (m : M A) (h : list pydict) : result A * state :=
  m {| heap := h; trace := [] |}.

Definition is_solver_call (ev : event) : bool :=
  match ev with EvLeastSquares _ _ _ => true | _ => false end.

(** The number of invocations of [least_squares] in a trace. *)
Definition solver_calls (t : list event) : nat :=
  length (List.filter is_solver_call t).

(** The contents of [fixed_params] in the heap [h]; [None] behaves as the
    empty dictionary. *)
Definition fixed_at (h : list pydict) (fixed_params : option loc)
    (fixed : list (string * float)) : Prop :=
  match fixed_params with
  | Some l => h !! l = Some (float_dict fixed)
  | None => fixed = []
  end.

(** *** The residual in the words of the specification *)

(** The parameter assignment [free=x, fixed]: the keys of [init_guess] paired
    in order with the components of [x], and the fixed parameters. *)
Definition assignment (keys : list string) (x : list float)
    (fixed : list (string * float)) : list (string * float) :=
  dict_merge (dict_comprehension (zip keys x)) fixed.

(** [exp(logCDF(upper; free=x, fixed)) - exp(logCDF(lower; free=x, fixed)) - mass] *)
Definition residual_spec (exp : float -> float)
    (logcdf_lower logcdf_upper : list (string * float) -> float)
    (keys : list string) (fixed : list (string * float)) (mass : float)
    (x : list float) : float :=
  (exp (logcdf_upper (assignment keys x fixed))
   - exp (logcdf_lower (assignment keys x fixed)) - mass)%float.

(** [exp(logCDF(upper)) - exp(logCDF(lower))] at a parameter set. *)
Definition achieved_mass (exp : float -> float)
    (logcdf_lower logcdf_upper : list (string * float) -> float)
    (params : list (string * float)) : float :=
  (exp (logcdf_upper params) - exp (logcdf_lower params))%float.

(** Two dictionaries with the same keys in the same order, whose values are
    related pairwise. *)
Definition related {V W : Type} (R : V -> W -> Prop)
    (d : list (string * V)) (d' : list (string * W)) : Prop :=
  Forall2 (fun a b => a.1 = b.1 /\ R a.2 b.2) d d'.

(** [frames h0 m post]: from a heap that begins with the objects [h0], the
    statement [m] ends in a heap that begins with the same objects, unchanged,
    and its value, if it returns one, satisfies [post]. *)
Definition frames {A : Type} (h0 : list pydict) (m : M A) (post : A -> Prop) :
    Prop :=
  forall s,
    h0 `prefix_of` heap s ->
    h0 `prefix_of` heap (m s).2 /\ forall a, (m s).1 = Ok a -> post a.

(** ** Test doubles *)

(** An exponential for the examples: [(1 + y + y^2/2 + y^3/6 + y^4/24)^1024]
    at [y = x / 1024]. *)
Definition exp_approx (x : float) : float :=
  let y := (x / 1024)%float in
  let p := (1 + y * (1 + y / 2 * (1 + y / 3 * (1 + y / 4))))%float in
  Nat.iter 10 (fun q => (q * q)%float) p.

(** The Gumbel family: [logcdf(value) = -exp(-(value - mu) / beta)]. *)
Definition gumbel_logcdf (value : float) (kw : list (string * float)) : float :=
  match dict_get "mu" kw, dict_get "beta" kw with
  | Some mu, Some beta => (- exp_approx (- ((value - mu) / beta)))%float
  | _, _ => nan
  end.

Definition Gumbel : Distribution :=
  {| dist_str := "<class 'pymc.distributions.continuous.Gumbel'>";
     ndims_params := [0; 0]%Z;
     dist_signature := fun _ => Ok tt;
     logcdf := fun value => Ok (gumbel_logcdf value) |}.

(** A family with a vector parameter and a matrix parameter. *)
Definition MvNormal : Distribution :=
  {| dist_str := "<class 'pymc.distributions.multivariate.MvNormal'>";
     ndims_params := [1; 2]%Z;
     dist_signature := fun _ => Ok tt;
     logcdf := fun _ => Err (NotImplementedError "Logcdf not implemented") |}.

(** A scalar family without a [logcdf] method: the dispatch of [pm.logcdf]
    finds nothing registered for it and raises [NotImplementedError]. *)
Definition logcdf_not_implemented : exn :=
  NotImplementedError "Logcdf not implemented".

Definition NoLogcdf : Distribution :=
  {| dist_str := "<class 'NoLogcdf'>";
     ndims_params := [0; 0]%Z;
     dist_signature := fun _ => Ok tt;
     logcdf := fun _ => Err logcdf_not_implemented |}.

(** A backend whose gradient and solver answer as told. *)
Definition stub_backend
    (grad : result (list float -> result (list float)))
    (answer : result OptimizeResult) : Backend :=
  {| math_exp := exp_approx;
     function_compile := fun _ => Ok tt;
     gradient := fun _ => grad;
     least_squares := fun _ _ _ => answer |}.

Definition no_gradient : result (list float -> result (list float)) :=
  Err (NotImplementedError "gradient").

Definition converged (x : list float) : result OptimizeResult :=
  Ok {| opt_x := x; opt_success := true |}.

Definition not_converged (x : list float) : result OptimizeResult :=
  Ok {| opt_x := x; opt_success := false |}.

(** Three dictionaries of a caller: [{"mu": 5}] at address 0,
    [{"beta": 2}] at address 1 and [{"mu": 5, "beta": 3}] at address 2. *)
Definition example_heap : list pydict :=
  [float_dict [("mu", 5%float)];
   float_dict [("beta", 2%float)];
   float_dict [("mu", 5%float); ("beta", 3%float)]].

(** The graph of the residual for [init_guess = {"mu": 5}],
    [fixed_params = {"beta": 2}], [lower = 0], [upper = 10], [mass = 0.95]. *)
Definition example_kwargs : list (string * tensor) :=
  [("mu", Subtensor 0); ("beta", Constant 2)].

Definition example_cdf_error : tensor :=
  SubOp (SubOp (ExpOp (LogcdfOp 10 (gumbel_logcdf 10) example_kwargs))
               (ExpOp (LogcdfOp 0 (gumbel_logcdf 0) example_kwargs)))
        (Constant 0.95).

Definition example_residual (x : list float) : result float :=
  eval exp_approx x example_cdf_error.

Definition example_params_to_optim : pydict :=
  [("mu", PyTensor (Subtensor 0)); ("beta", PyFloat 2)].

(** What that call has done when the solver returns, for the Jacobian [jac]
    it was given. *)
Definition example_trace (jac : jacobian) : list event :=
  [EvDist example_kwargs; EvLogcdf 0; EvLogcdf 10;
   EvFunction example_cdf_error; EvGradient example_cdf_error;
   EvLeastSquares example_residual [PyFloat 5] jac].

(** The dictionary of results and the events of the validation when the
    solver answers [mu]. *)
Definition example_opt_params (mu : float) : pydict :=
  float_dict [("mu", mu); ("beta", 2%float)].

Definition example_validation (mu : float) : list event :=
  [EvDist [("mu", Constant mu); ("beta", Constant 2)];
   EvLogcdf 10; EvLogcdf 0].

Definition example_final_heap (mu : float) : list pydict :=
  example_heap ++ [example_params_to_optim; example_opt_params mu].

(** The same call with [init_guess = {"mu": 5, "beta": 3}], which shares the
    key ["beta"] with [fixed_params]: the events up to the solver's return. *)
Definition example_overlap_trace : list event :=
  [EvDist example_kwargs; EvLogcdf 0; EvLogcdf 10;
   EvFunction example_cdf_error; EvGradient example_cdf_error;
   EvLeastSquares example_residual [PyFloat 5; PyFloat 3] Jac2Point].

(** A Jacobian for the examples, and an exception of the solver. *)
Definition example_jac (x : list float) : result (list float) :=
  Ok [0%float].

Definition solver_error : exn :=
  ValueError "Residuals are not finite in the initial point.".

(** The state the example call ends in when the solver does not give a
    solution, and when it answers [mu]. *)
Definition example_failed_state : state :=
  {| heap := example_heap ++ [example_params_to_optim];
     trace := example_trace Jac2Point |}.

Definition example_final_state (mu : float) : state :=
  {| heap := example_final_heap mu;
     trace := example_trace Jac2Point ++ example_validation mu |}.

(** The state the example call ends in when the family has no log-CDF. *)
Definition example_no_logcdf_state : state :=
  {| heap := example_heap ++ [example_params_to_optim];
     trace := [EvDist example_kwargs; EvLogcdf 0] |}.

(** * Properties *)

(** ** The heap *)

Lemma lookup_snoc {A : Type} (h : list A) (d : A) :
  (h ++ [d]) !! length h = Some d.
Proof. by apply list_lookup_middle. Qed.

Lemma insert_snoc {A : Type} (h : list A) (d d' : A) :
  <[length h := d']> (h ++ [d]) = h ++ [d'].
Proof. rewrite insert_app_r_alt by lia. by rewrite Nat.sub_diag. Qed.

Lemma lookup_snoc_old {A : Type} (h : list A) (d : A) (l : nat) (x : A) :
  h !! l = Some x -> (h ++ [d]) !! l = Some x.
Proof. apply lookup_app_l_Some. Qed.

(** ** Dictionaries *)

(** Lookups and key sets after [d[k] = v] and [d.update(other)]. *)
Section Dict.
Context {V : Type}.
Implicit Types (d o : list (string * V)) (k : string) (v : V).

Lemma eqb_decide k k' : String.eqb k k' = bool_decide (k = k').
Proof.
  destruct (String.eqb_spec k k').
  - by rewrite bool_decide_eq_true_2.
  - by rewrite bool_decide_eq_false_2.
Qed.

Lemma dict_get_setitem k k' v d :
  dict_get k' (dict_setitem k v d)
  = if decide (k' = k) then Some v else dict_get k' d.
Proof.
  induction d as [|[k0 v0] d IH]; simpl.
  - rewrite eqb_decide. by case_bool_decide; case_decide.
  - rewrite !eqb_decide. repeat (case_bool_decide; simpl); rewrite ?eqb_decide;
      repeat case_bool_decide; case_decide; simplify_eq; try done.
Qed.

Lemma dict_keys_setitem k v d :
  dict_keys (dict_setitem k v d) =
  if decide (k ∈ dict_keys d) then dict_keys d else dict_keys d ++ [k].
Proof.
  unfold dict_keys. induction d as [|[k0 v0] d IH].
  - destruct (decide _) as [Hin|]; [|done]. by apply elem_of_nil in Hin.
  - cbn [dict_setitem]. rewrite eqb_decide. case_bool_decide as Hk.
    + subst. rewrite decide_True; [done|]. apply list_elem_of_here.
    + rewrite !fmap_cons, IH. cbn [fst].
      destruct (decide (k ∈ d.*1)) as [Hin|Hin].
      * rewrite decide_True; [done|]. by apply list_elem_of_further.
      * rewrite decide_False; [done|]. by intros [|]%elem_of_cons.
Qed.

Lemma elem_of_keys_setitem k k' v d :
  k' ∈ dict_keys (dict_setitem k v d) <-> k' = k \/ k' ∈ dict_keys d.
Proof.
  rewrite dict_keys_setitem. destruct (decide _) as [Hin|Hin].
  - split; [tauto|]. by intros [->|].
  - rewrite elem_of_app, list_elem_of_singleton. tauto.
Qed.

Lemma NoDup_keys_setitem k v d :
  NoDup (dict_keys d) -> NoDup (dict_keys (dict_setitem k v d)).
Proof.
  intros Hd. rewrite dict_keys_setitem. case_decide; [done|].
  apply NoDup_app. split_and!; [done| |apply NoDup_singleton].
  intros x Hx ->%list_elem_of_singleton. done.
Qed.

Lemma dict_merge_cons d k v o :
  dict_merge d ((k, v) :: o) = dict_merge (dict_setitem k v d) o.
Proof. reflexivity. Qed.

Lemma elem_of_keys_merge k d o :
  k ∈ dict_keys (dict_merge d o) <-> k ∈ dict_keys d \/ k ∈ dict_keys o.
Proof.
  revert d. induction o as [|[k0 v0] o IH]; intros d.
  - change (dict_merge d []) with d.
    change (dict_keys (@nil (string * V))) with (@nil string).
    rewrite elem_of_nil. tauto.
  - rewrite dict_merge_cons, IH, elem_of_keys_setitem.
    change (dict_keys ((k0, v0) :: o)) with (k0 :: dict_keys o).
    rewrite elem_of_cons. tauto.
Qed.

Lemma NoDup_keys_merge d o :
  NoDup (dict_keys d) -> NoDup (dict_keys (dict_merge d o)).
Proof.
  revert d. induction o as [|[k0 v0] o IH]; intros d Hd; [done|].
  rewrite dict_merge_cons. by apply IH, NoDup_keys_setitem.
Qed.

Lemma dict_get_None k d : k ∉ dict_keys d -> dict_get k d = None.
Proof.
  unfold dict_keys. induction d as [|[k0 v0] d IH]; simpl; [done|].
  rewrite not_elem_of_cons, eqb_decide. intros [? ?].
  rewrite bool_decide_eq_false_2 by done. auto.
Qed.

Lemma dict_get_merge k d o :
  NoDup (dict_keys o) ->
  dict_get k (dict_merge d o) =
  match dict_get k o with Some v => Some v | None => dict_get k d end.
Proof.
  revert d. induction o as [|[k0 v0] o IH]; intros d Ho; [done|].
  unfold dict_keys in Ho. simpl in Ho. apply NoDup_cons in Ho as [Hk0 Ho].
  rewrite dict_merge_cons, IH by done. simpl.
  rewrite dict_get_setitem, eqb_decide.
  case_bool_decide; subst.
  - rewrite decide_True by done. by rewrite dict_get_None.
  - rewrite decide_False by done. done.
Qed.
End Dict.

(** An update of two dictionaries that are related, with related values,
    leaves them related: the keys and their order do not depend on the
    values. *)
Section Related.
Context {V W : Type} (R : V -> W -> Prop).

Lemma related_setitem k v w d d' :
  R v w -> related R d d' ->
  related R (dict_setitem k v d) (dict_setitem k w d').
Proof.
  intros Hvw Hd.
  induction Hd as [|[k1 v1] [k2 w1] d d' [Hk HR] Hd IH]; cbn [dict_setitem].
  - by repeat constructor.
  - simpl in Hk. subst. destruct (String.eqb k k2); by constructor.
Qed.

Lemma related_merge d d' o o' :
  related R d d' -> related R o o' ->
  related R (dict_merge d o) (dict_merge d' o').
Proof.
  intros Hd Ho. revert d d' Hd.
  induction Ho as [|[k1 v1] [k2 w1] o o' [Hk HR] Ho IH]; intros d d' Hd; [done|].
  simpl in Hk, HR. subst. rewrite !dict_merge_cons. by apply IH, related_setitem.
Qed.

Lemma related_zip keys vs ws :
  Forall2 R vs ws -> related R (zip keys vs) (zip keys ws).
Proof.
  intros H. revert keys.
  induction H as [|v w vs ws Hvw _ IH]; intros [|k keys]; simpl;
    try by constructor.
  constructor; [done|]. apply IH.
Qed.

Lemma related_keys d d' : related R d d' -> dict_keys d = dict_keys d'.
Proof.
  unfold dict_keys.
  induction 1 as [|[k1 v1] [k2 w1] d d' [Hk _] _ IH]; [done|].
  rewrite !fmap_cons. simpl in Hk. by rewrite Hk, IH.
Qed.
End Related.

Lemma dict_merge_snoc {V : Type} (d items : list (string * V)) :
  NoDup (dict_keys (d ++ items)) -> dict_merge d items = d ++ items.
Proof.
  revert d. induction items as [|[k v] items IH]; intros d Hnd.
  - by rewrite app_nil_r.
  - rewrite dict_merge_cons.
    assert (dict_setitem k v d = d ++ [(k, v)]) as ->.
    { unfold dict_keys in Hnd. rewrite fmap_app in Hnd.
      apply NoDup_app in Hnd as (_ & Hfresh & _).
      clear IH. induction d as [|[k0 v0] d IHd]; [done|].
      cbn [dict_setitem]. rewrite eqb_decide, bool_decide_eq_false_2.
      - rewrite IHd; [done|]. intros x Hx. apply Hfresh. by right.
      - intros ->. eapply (Hfresh k0); [by left|]. by left. }
    rewrite IH; rewrite <- (assoc_L (++)); done.
Qed.

Lemma dict_comprehension_NoDup {V : Type} (items : list (string * V)) :
  NoDup (dict_keys items) -> dict_comprehension items = items.
Proof. intros. by apply (dict_merge_snoc []). Qed.

Lemma dict_get_zip {V : Type} (keys : list string) (vals : list V) i k v :
  NoDup keys -> keys !! i = Some k -> vals !! i = Some v ->
  dict_get k (zip keys vals) = Some v.
Proof.
  revert i vals. induction keys as [|k0 keys IH]; intros i vals Hnd Hk Hv; [done|].
  apply NoDup_cons in Hnd as [Hk0 Hnd].
  destruct vals as [|v0 vals]; [done|]. destruct i as [|i]; simpl in *.
  - simplify_eq. by rewrite String.eqb_refl.
  - rewrite eqb_decide, bool_decide_eq_false_2; [eauto|].
    intros ->. apply Hk0. by eapply list_elem_of_lookup_2.
Qed.

Lemma dict_get_zip_insert {V : Type} (keys : list string) (vals : list V)
    i k k' y :
  keys !! i = Some k -> k' <> k ->
  dict_get k' (zip keys (<[i := y]> vals)) = dict_get k' (zip keys vals).
Proof.
  revert i vals. induction keys as [|k0 keys IH]; intros i vals Hk Hne; [done|].
  destruct vals as [|v0 vals]; [done|]. destruct i as [|i]; simpl in *.
  - simplify_eq. by rewrite eqb_decide, bool_decide_eq_false_2.
  - by erewrite IH.
Qed.

Lemma dict_ext {V : Type} (d d' : list (string * V)) :
  NoDup (dict_keys d) -> dict_keys d = dict_keys d' ->
  (forall k, dict_get k d = dict_get k d') -> d = d'.
Proof.
  unfold dict_keys. revert d'.
  induction d as [|[k v] d IH]; intros [|[k' v'] d'] Hnd Hkeys Hget; try done.
  rewrite !fmap_cons in Hkeys. cbn [fst] in Hkeys.
  injection Hkeys as -> Hkeys. apply NoDup_cons in Hnd as [Hk Hnd].
  pose proof (Hget k') as Hk'. simpl in Hk'. rewrite String.eqb_refl in Hk'.
  injection Hk' as ->. f_equal. apply IH; [done..|].
  intros k. specialize (Hget k). simpl in Hget. rewrite eqb_decide in Hget.
  case_bool_decide; [|done]. subst.
  rewrite !dict_get_None; unfold dict_keys; rewrite <- ?Hkeys; done.
Qed.

(** ** Graphs *)

Section EvalLemmas.
Variable exp : float -> float.

Lemma eval_LogcdfOp x value cdf kwargs :
  eval exp x (LogcdfOp value cdf kwargs) =
  match eval_kwargs exp x kwargs with
  | Ok vs => Ok (cdf vs)
  | Err e => Err e
  end.
Proof.
  change (eval exp x (LogcdfOp value cdf kwargs)) with
    (match
        (fix go (kw : list (string * tensor)) : result (list (string * float)) :=
           match kw with
           | [] => Ok []
           | (k, a) :: kw' =>
               match eval exp x a with
               | Ok v => match go kw' with Ok vs => Ok ((k, v) :: vs) | Err e => Err e end
               | Err e => Err e
               end
           end) kwargs
      with Ok vs => Ok (cdf vs) | Err e => Err e end).
  enough (forall kw,
    (fix go (kw : list (string * tensor)) : result (list (string * float)) :=
           match kw with
           | [] => Ok []
           | (k, a) :: kw' =>
               match eval exp x a with
               | Ok v => match go kw' with Ok vs => Ok ((k, v) :: vs) | Err e => Err e end
               | Err e => Err e
               end
           end) kw = eval_kwargs exp x kw) as -> by done.
  induction kw as [|[k a] kw IH]; [done|]. simpl. by rewrite IH.
Qed.

Lemma eval_Subtensor x i :
  eval exp x (Subtensor i) =
  match x !! i with
  | Some v => Ok v
  | None => Err (IndexError "index out of bounds")
  end.
Proof. reflexivity. Qed.

Lemma eval_ExpOp x a :
  eval exp x (ExpOp a) =
  match eval exp x a with Ok v => Ok (exp v) | Err e => Err e end.
Proof. reflexivity. Qed.

Lemma eval_SubOp x a b :
  eval exp x (SubOp a b) =
  match eval exp x a with
  | Ok v => match eval exp x b with Ok w => Ok (v - w)%float | Err e => Err e end
  | Err e => Err e
  end.
Proof. reflexivity. Qed.

Lemma eval_cdf_error x lower upper cdf_lo cdf_up kwargs mass vs :
  eval_kwargs exp x kwargs = Ok vs ->
  eval exp x
    (SubOp (SubOp (ExpOp (LogcdfOp upper cdf_up kwargs))
                  (ExpOp (LogcdfOp lower cdf_lo kwargs)))
           (Constant mass))
  = Ok (exp (cdf_up vs) - exp (cdf_lo vs) - mass)%float.
Proof.
  intros Hkw. by rewrite !eval_SubOp, !eval_ExpOp, !eval_LogcdfOp, Hkw.
Qed.

Lemma eval_kwargs_related x (d : pydict) (vs : list (string * float)) :
  related (fun p c => eval exp x (as_tensor_variable p) = Ok c) d vs ->
  eval_kwargs exp x (map (fun kv => (kv.1, as_tensor_variable kv.2)) d) = Ok vs.
Proof.
  induction 1 as [|[k p] [k' c] d vs [Hk Hp] _ IH]; [done|].
  simpl in *. subst. by rewrite Hp, IH.
Qed.

Lemma related_float_dict x (d : list (string * float)) :
  related (fun p c => eval exp x (as_tensor_variable p) = Ok c) (float_dict d) d.
Proof. induction d as [|[k c] d IH]; by constructor. Qed.

Lemma related_dist_params (x : list float) :
  Forall2 (fun p c => eval exp x (as_tensor_variable p) = Ok c)
    (map (fun i => PyTensor (Subtensor i)) (seq 0 (length x))) x.
Proof.
  apply Forall2_fmap_l, Forall2_same_length_lookup_2.
  - by rewrite length_seq.
  - intros i j c [-> _]%lookup_seq Hc. simpl.
    by rewrite eval_Subtensor, Hc.
Qed.

(** The graph of the keyword arguments evaluates to the assignment. *)
Lemma eval_kwargs_params_to_optim (x : list float) (keys : list string)
    (fixed : list (string * float)) :
  eval_kwargs exp x
    (map (fun kv => (kv.1, as_tensor_variable kv.2))
       (dict_merge
          (dict_comprehension
             (zip keys (map (fun i => PyTensor (Subtensor i)) (seq 0 (length x)))))
          (float_dict fixed)))
  = Ok (assignment keys x fixed).
Proof.
  apply eval_kwargs_related, related_merge; [|apply related_float_dict].
  apply related_merge; [constructor|]. apply related_zip, related_dist_params.
Qed.
End EvalLemmas.

(** ** The dictionary of results *)

Lemma float_dict_setitem k c d :
  dict_setitem k (PyFloat c) (float_dict d) = float_dict (dict_setitem k c d).
Proof.
  induction d as [|[k0 c0] d IH]; [done|]. simpl.
  destruct (String.eqb k k0); [done|]. simpl. by f_equal.
Qed.

Lemma float_dict_merge d o :
  dict_merge (float_dict d) (float_dict o) = float_dict (dict_merge d o).
Proof.
  revert d. induction o as [|[k c] o IH]; intros d; [done|].
  change (float_dict ((k, c) :: o)) with ((k, PyFloat c) :: float_dict o).
  by rewrite !dict_merge_cons, float_dict_setitem, IH.
Qed.

Lemma float_dict_zip (keys : list string) (xs : list float) :
  zip keys (map PyFloat xs) = float_dict (zip keys xs).
Proof.
  revert xs. induction keys as [|k keys IH]; intros [|x xs]; simpl; try done.
  by f_equal.
Qed.

(** The dictionary of results holds the assignment of the solution. *)
Lemma opt_params_float keys xs fixed :
  dict_merge (dict_comprehension (zip keys (map PyFloat xs))) (float_dict fixed)
  = float_dict (assignment keys xs fixed).
Proof.
  unfold assignment, dict_comprehension.
  by rewrite float_dict_zip, (float_dict_merge []), float_dict_merge.
Qed.

Lemma dict_keys_float_dict d : dict_keys (float_dict d) = dict_keys d.
Proof.
  unfold dict_keys, float_dict. induction d as [|[k c] d IH]; [done|].
  simpl. by f_equal.
Qed.

Lemma dict_get_float_dict k d :
  dict_get k (float_dict d) = PyFloat <$> dict_get k d.
Proof.
  induction d as [|[k0 c0] d IH]; [done|]. simpl. by destruct (String.eqb k k0).
Qed.

(** The keys of the merged dictionary do not depend on the values that the
    keys of [init_guess] are paired with, as long as there are as many. *)
Lemma merged_keys_values {V W : Type} (keys : list string) (vs : list V)
    (ws : list W) (fixed : list (string * V)) (fixed' : list (string * W)) :
  length vs = length ws -> dict_keys fixed = dict_keys fixed' ->
  dict_keys (dict_merge (dict_comprehension (zip keys vs)) fixed)
  = dict_keys (dict_merge (dict_comprehension (zip keys ws)) fixed').
Proof.
  intros Hlen Hfixed. apply (related_keys (fun _ _ => True)).
  apply related_merge.
  - apply related_merge; [constructor|]. apply related_zip.
    by apply Forall2_same_length_lookup_2.
  - clear -Hfixed. unfold dict_keys in Hfixed. revert fixed' Hfixed.
    induction fixed as [|[k v] fixed IH]; intros [|[k' w] fixed'] Heq;
      try done; [constructor|].
    rewrite !fmap_cons in Heq. injection Heq as -> Heq.
    constructor; [done|]. by apply IH.
Qed.

Section Mass.
Variable exp : float -> float.

Lemma eval_kwargs_float_dict x params :
  eval_kwargs exp x
    (map (fun kv => (kv.1, as_tensor_variable kv.2)) (float_dict params))
  = Ok params.
Proof. apply eval_kwargs_related, related_float_dict. Qed.

Lemma eval_mass_in_interval x lower upper cdf_lo cdf_up params :
  eval exp x
    (SubOp
       (ExpOp (LogcdfOp upper cdf_up
                 (map (fun kv => (kv.1, as_tensor_variable kv.2))
                    (float_dict params))))
       (ExpOp (LogcdfOp lower cdf_lo
                 (map (fun kv => (kv.1, as_tensor_variable kv.2))
                    (float_dict params)))))
  = Ok (achieved_mass exp cdf_lo cdf_up params).
Proof.
  by rewrite eval_SubOp, !eval_ExpOp, !eval_LogcdfOp, eval_kwargs_float_dict.
Qed.
End Mass.

Lemma params_to_optim_keys (keys : list string) (n : nat) (xs : list float)
    (fixed : list (string * float)) :
  length xs = n ->
  dict_keys
    (dict_merge
       (dict_comprehension
          (zip keys (map (fun i => PyTensor (Subtensor i)) (seq 0 n))))
       (float_dict fixed))
  = dict_keys (assignment keys xs fixed).
Proof.
  intros Hlen. apply merged_keys_values.
  - by rewrite length_map, length_seq.
  - apply dict_keys_float_dict.
Qed.

Lemma lookup_snoc_snoc {A : Type} (h : list A) (d d' : A) :
  ((h ++ [d]) ++ [d']) !! S (length h) = Some d'.
Proof.
  replace (S (length h)) with (length (h ++ [d])); [apply lookup_snoc|].
  rewrite length_app. simpl. lia.
Qed.

Lemma length_snoc {A : Type} (h : list A) (d : A) :
  length (h ++ [d]) = S (length h).
Proof. rewrite length_app. simpl. lia. Qed.

Lemma opt_params_float_nil keys xs :
  dict_comprehension (zip keys (map PyFloat xs))
  = float_dict (assignment keys xs []).
Proof. exact (opt_params_float keys xs []). Qed.

Lemma params_to_optim_keys_nil (keys : list string) (n : nat)
    (xs : list float) :
  length xs = n ->
  dict_keys
    (dict_comprehension
       (zip keys (map (fun i => PyTensor (Subtensor i)) (seq 0 n))))
  = dict_keys (assignment keys xs []).
Proof. exact (params_to_optim_keys keys n xs []). Qed.

(** ** The parameter assignment *)

Lemma dict_keys_zip {V : Type} (keys : list string) (vs : list V) :
  length vs = length keys -> dict_keys (zip keys vs) = keys.
Proof. intros Hlen. apply fst_zip. lia. Qed.

Lemma assignment_keys k keys xs fixed :
  length xs = length keys ->
  k ∈ dict_keys (assignment keys xs fixed)
  <-> k ∈ keys \/ k ∈ dict_keys fixed.
Proof.
  intros Hlen. unfold assignment, dict_comprehension.
  rewrite !elem_of_keys_merge, dict_keys_zip by done.
  change (dict_keys (@nil (string * float))) with (@nil string).
  rewrite elem_of_nil. tauto.
Qed.

Lemma assignment_get k keys xs fixed :
  NoDup keys -> NoDup (dict_keys fixed) -> length xs = length keys ->
  dict_get k (assignment keys xs fixed)
  = match dict_get k fixed with
    | Some v => Some v
    | None => dict_get k (zip keys xs)
    end.
Proof.
  intros Hkeys Hfixed Hlen. unfold assignment.
  rewrite dict_get_merge by done.
  by rewrite dict_comprehension_NoDup by by rewrite dict_keys_zip.
Qed.

Lemma assignment_get_fixed k v keys xs fixed :
  NoDup (dict_keys fixed) -> dict_get k fixed = Some v ->
  dict_get k (assignment keys xs fixed) = Some v.
Proof.
  intros Hfixed Hk. unfold assignment. by rewrite dict_get_merge, Hk.
Qed.

Lemma assignment_insert keys xs fixed i k v y :
  NoDup keys -> NoDup (dict_keys fixed) -> length xs = length keys ->
  keys !! i = Some k -> dict_get k fixed = Some v ->
  assignment keys (<[i := y]> xs) fixed = assignment keys xs fixed.
Proof.
  intros Hkeys Hfixed Hlen Hi Hk. apply dict_ext.
  - apply NoDup_keys_merge, NoDup_keys_merge, NoDup_nil_2.
  - apply merged_keys_values; [apply length_insert|done].
  - intros k'. rewrite !assignment_get by (by rewrite ?length_insert).
    destruct (dict_get k' fixed) eqn:Hk'; [done|].
    eapply dict_get_zip_insert; [done|]. congruence.
Qed.

Lemma dict_get_kwargs k (d : pydict) :
  dict_get k (map (fun kv => (kv.1, as_tensor_variable kv.2)) d)
  = as_tensor_variable <$> dict_get k d.
Proof.
  induction d as [|[k0 v0] d IH]; [done|]. simpl. by destruct (String.eqb k k0).
Qed.

(** ** Running the function *)

(** The statements of [find_optim_prior] are unfolded into one case analysis,
    which [step_in] follows a scrutinee at a time: it rewrites with a
    hypothesis about the scrutinee when there is one and splits otherwise. *)
Ltac unfold_run_in H :=
  unfold call, find_optim_prior, dist, pm_logcdf, aesara_function,
    tensor_eval, warn, dict_update, py_assert, try_except, extern, deref,
    alloc, bind, ret, raise, floatX in H.

Ltac head_scrutinee t :=
  lazymatch t with
  | match ?x with _ => _ end => head_scrutinee x
  | (match ?x with _ => _ end) _ => head_scrutinee x
  | _ => t
  end.

Ltac heap_simpl_in H :=
  repeat first
    [ rewrite lookup_snoc in H
    | rewrite insert_snoc in H
    | erewrite lookup_snoc_old in H by eauto using lookup_snoc_old ].

Ltac reduce_in H :=
  cbv beta iota zeta delta [heap trace] in H; heap_simpl_in H.

Ltac step_in H :=
  reduce_in H;
  lazymatch type of H with
  | ?t = _ =>
      let y := head_scrutinee t in
      lazymatch y with t => fail | _ => idtac end;
      first [ match goal with Hy : y = _ |- _ => rewrite Hy in H end
            | destruct y eqn:? ]
  end.

Ltac run_in H := unfold_run_in H; repeat step_in H; reduce_in H.

(** ** The preconditions *)

(** The order of binary64 numbers: [<=] excludes the converse [<], and a NaN
    is below nothing and above nothing. *)
Lemma SFcompare_antisym (x y : spec_float) :
  SFcompare y x = option_map CompOpp (SFcompare x y).
Proof.
  destruct x as [[]|[]| |[] m1 e1], y as [[]|[]| |[] m2 e2]; try reflexivity;
    simpl; rewrite (Z.compare_antisym e1 e2);
    destruct (e1 ?= e2)%Z; simpl; try reflexivity.
  all: rewrite (Pos.compare_cont_antisym m1 m2 Eq); simpl.
  all: try reflexivity.
Qed.

Lemma leb_not_ltb (x y : float) :
  (x <=? y)%float = true -> (y <? x)%float = false.
Proof.
  rewrite leb_spec, ltb_spec. unfold SFleb, SFltb.
  rewrite (SFcompare_antisym (Prim2SF x)).
  by destruct (SFcompare (Prim2SF x) (Prim2SF y)) as [[]|].
Qed.

Lemma nan_not_ltb (x y : float) :
  is_nan x = true -> (x <? y)%float = false /\ (y <? x)%float = false.
Proof.
  unfold is_nan. rewrite !ltb_spec, FloatAxioms.eqb_spec. unfold SFltb, SFeqb.
  destruct (Prim2SF x) as [[]|[]| |[] m e]; try discriminate; simpl.
  all: try (rewrite Z.compare_refl, ?Pos.compare_cont_refl; discriminate).
  intros _. split; [done|]. by destruct (Prim2SF y).
Qed.

(** The numbers that are not strictly between 0.01 and 0.99. *)
Lemma outside_interval (mass : float) :
  (mass <=? 0.01)%float = true \/ (0.99 <=? mass)%float = true \/
  is_nan mass = true ->
  (0.01 <? mass)%float && (mass <? 0.99)%float = false.
Proof.
  intros [H|[H|H]].
  - by rewrite (leb_not_ltb _ _ H).
  - rewrite (leb_not_ltb _ _ H). apply andb_false_r.
  - by rewrite (proj2 (nan_not_ltb mass 0.01 H)).
Qed.

(** C3.  A [mass] outside the open interval (0.01, 0.99), that is at most
    0.01, at least 0.99 or not a number, fails the assertion: the call raises
    [AssertionError] and leaves the state as it was, so that nothing was
    built, differentiated or solved. *)
Theorem mass_outside_interval_raises (B : Backend) (D : Distribution)
    (lower upper : float) (init_guess : loc) (mass : float)
    (fixed_params : option loc) (s : state) :
  (mass <=? 0.01)%float = true \/ (0.99 <=? mass)%float = true \/
  is_nan mass = true ->
  find_optim_prior B D lower upper init_guess mass fixed_params s
  = (Err AssertionError, s).
Proof.
  intros Hmass%outside_interval.
  unfold find_optim_prior, bind, py_assert. by rewrite Hmass.
Qed.

(** The bounds themselves, 0 and 1 are rejected, on the example heap. *)
Lemma mass_outside_interval_raises_witness :
  let rejected mass :=
    call (find_optim_prior (stub_backend no_gradient (converged []))
            Gumbel 0 10 0 mass (Some 1)) example_heap
    = (Err AssertionError, {| heap := example_heap; trace := [] |}) in
  rejected 0.01%float /\ rejected 0.99%float /\
  rejected 0%float /\ rejected 1%float.
Proof.
  cbv zeta. unfold call.
  split; [|split; [|split]];
    apply (mass_outside_interval_raises
             (stub_backend no_gradient (converged [])) Gumbel);
    first [left; reflexivity | right; left; reflexivity].
Defined.

(** C8.  With a valid [mass], a family that declares a parameter of non-zero
    dimension is refused with [NotImplementedError]; the state is as it was:
    no graph, no dictionary, no call to the solver. *)
Theorem non_scalar_parameter_raises (B : Backend) (D : Distribution)
    (lower upper : float) (init_guess : loc) (mass : float)
    (fixed_params : option loc) (s : state) :
  (0.01 <? mass)%float && (mass <? 0.99)%float = true ->
  Exists (fun n => n <> 0%Z) (ndims_params D) ->
  find_optim_prior B D lower upper init_guess mass fixed_params s
  = (Err (NotImplementedError non_scalar_message), s).
Proof.
  intros Hmass Hdim.
  assert (any_non_scalar D = true) as Hany.
  { unfold any_non_scalar. apply existsb_exists.
    apply Exists_exists in Hdim as (n & Hn & Hne).
    exists n. split; [by apply list_elem_of_In|].
    by apply negb_true_iff, Z.eqb_neq. }
  unfold find_optim_prior, bind, py_assert. by rewrite Hmass, Hany.
Qed.

Lemma non_scalar_parameter_raises_witness :
  call (find_optim_prior (stub_backend no_gradient (converged []))
          MvNormal 0 10 0 0.95 None) example_heap
  = (Err (NotImplementedError non_scalar_message),
     {| heap := example_heap; trace := [] |}).
Proof.
  apply (non_scalar_parameter_raises
           (stub_backend no_gradient (converged [])) MvNormal).
  - reflexivity.
  - apply Exists_cons_hd. lia.
Defined.

(** ** The solver *)

(** Membership in a trace that is known event by event. *)
Ltac trace_in H :=
  cbn [app In] in H; repeat (destruct H as [H | H]); try done; simplify_eq.

(** Every path of a call, each closed with what is known of the events of
    its trace. *)
Ltac all_paths H Hin :=
  run_in H; simplify_eq; cbn [trace heap] in *; trace_in Hin.

(** C6.  When the solver was called and reported non-convergence, the call
    raises [ValueError] with the optimization-failed message, the solver was
    called that once only, and no dictionary of results was built: the heap
    has gained the dictionary of symbolic parameters and nothing else. *)
Theorem solver_failure_is_fatal (B : Backend) (D : Distribution)
    (lower upper : float) (init_guess : loc) (mass : float)
    (fixed_params : option loc) (h : list pydict) (r : result loc)
    (s' : state) (f : list float -> result float) (x0 : list pyval)
    (j : jacobian) (opt : OptimizeResult) :
  call (find_optim_prior B D lower upper init_guess mass fixed_params) h
  = (r, s') ->
  In (EvLeastSquares f x0 j) (trace s') ->
  least_squares B f x0 j = Ok opt ->
  opt_success opt = false ->
  r = Err (ValueError optimization_failed_message) /\
  solver_calls (trace s') = 1 /\
  exists params_to_optim, heap s' = h ++ [params_to_optim].
Proof.
  intros H Hin Hls Hfail.
  destruct fixed_params as [fixed|]; all_paths H Hin;
    rewrite Hls in *; simplify_eq;
    rewrite Hfail in *; simplify_eq/=; eauto.
Qed.

Lemma solver_failure_is_fatal_witness :
  call (find_optim_prior (stub_backend no_gradient (not_converged [5%float]))
          Gumbel 0 10 0 0.95 (Some 1)) example_heap
  = (Err (ValueError optimization_failed_message),
     {| heap := example_heap ++ [example_params_to_optim];
        trace := example_trace Jac2Point |}) /\
  solver_calls (example_trace Jac2Point) = 1.
Proof.
  split; [reflexivity|].
  apply (solver_failure_is_fatal
           (stub_backend no_gradient (not_converged [5%float]))
           Gumbel 0 10 0 0.95 (Some 1) example_heap
           (Err (ValueError optimization_failed_message))
           {| heap := example_heap ++ [example_params_to_optim];
              trace := example_trace Jac2Point |}
           example_residual [PyFloat 5] Jac2Point
           {| opt_x := [5%float]; opt_success := false |}).
  - reflexivity.
  - simpl. tauto.
  - reflexivity.
  - reflexivity.
Defined.

(** ** The residual *)

(** C1.  The function handed to the solver, at a vector [x] with one
    component for each key of [init_guess], is
    [exp(logCDF(upper)) - exp(logCDF(lower)) - mass] at the parameters that
    pair the keys of [init_guess] with [x] in order and take the fixed
    parameters as they are. *)
Theorem residual_is_mass_error (B : Backend) (D : Distribution)
    (lower upper : float) (init_guess : loc) (mass : float)
    (fixed_params : option loc) (h : list pydict) (guess : pydict)
    (fixed : list (string * float)) (r : result loc) (s' : state)
    (f : list float -> result float) (x0 : list pyval) (j : jacobian)
    (logcdf_lower logcdf_upper : list (string * float) -> float)
    (x : list float) :
  h !! init_guess = Some guess ->
  fixed_at h fixed_params fixed ->
  call (find_optim_prior B D lower upper init_guess mass fixed_params) h
  = (r, s') ->
  In (EvLeastSquares f x0 j) (trace s') ->
  logcdf D lower = Ok logcdf_lower ->
  logcdf D upper = Ok logcdf_upper ->
  length x = length guess ->
  f x = Ok (residual_spec (math_exp B) logcdf_lower logcdf_upper
              (dict_keys guess) fixed mass x).
Proof.
  intros Hguess Hfixed H Hin Hlo Hup Hlen.
  destruct fixed_params as [l|]; simpl in Hfixed;
    [|subst fixed; set (fixed := @nil (string * float))];
    all_paths H Hin; rewrite <- Hlen;
    apply eval_cdf_error, (eval_kwargs_params_to_optim _ x _ fixed).
Qed.

Lemma residual_is_mass_error_witness :
  example_residual [4.5%float]
  = Ok (residual_spec exp_approx (gumbel_logcdf 0) (gumbel_logcdf 10)
          ["mu"] [("beta", 2%float)] 0.95 [4.5%float]).
Proof.
  apply (residual_is_mass_error
           (stub_backend no_gradient (not_converged [5%float]))
           Gumbel 0 10 0 0.95 (Some 1) example_heap
           (float_dict [("mu", 5%float)]) [("beta", 2%float)]
           (Err (ValueError optimization_failed_message))
           {| heap := example_heap ++ [example_params_to_optim];
              trace := example_trace Jac2Point |}
           example_residual [PyFloat 5] Jac2Point).
  - reflexivity.
  - reflexivity.
  - reflexivity.
  - simpl. tauto.
  - reflexivity.
  - reflexivity.
  - reflexivity.
Defined.

(** ** The validation *)

(** What is known at the end of a path that went through the validation: the
    dictionary of results is the assignment of the solution, its keys are
    those of the symbolic parameters, and the re-evaluated graph gives the
    achieved mass. *)
Ltac validate Hlen :=
  repeat match goal with
  | H : context [dict_keys (dict_merge (dict_comprehension
                   (zip _ (map (fun i => PyTensor (Subtensor i)) _))) _)] |- _ =>
      rewrite (params_to_optim_keys _ _ _ _ Hlen) in H
  | H : context [dict_keys (dict_comprehension
                   (zip _ (map (fun i => PyTensor (Subtensor i)) _)))] |- _ =>
      rewrite (params_to_optim_keys_nil _ _ _ Hlen) in H
  | H : context [dict_merge (dict_comprehension (zip _ (map PyFloat _)))
                   (float_dict _)] |- _ =>
      rewrite opt_params_float in H
  | |- context [dict_merge (dict_comprehension (zip _ (map PyFloat _)))
                   (float_dict _)] =>
      rewrite opt_params_float
  | H : context [dict_comprehension (zip _ (map PyFloat _))] |- _ =>
      rewrite opt_params_float_nil in H
  | |- context [dict_comprehension (zip _ (map PyFloat _))] =>
      rewrite opt_params_float_nil
  | H : context [dict_keys (float_dict _)] |- _ =>
      rewrite dict_keys_float_dict in H
  | H : context [eval _ _ (SubOp (ExpOp _) (ExpOp _))] |- _ =>
      rewrite eval_mass_in_interval in H
  end;
  simplify_eq;
  rewrite ?length_snoc, ?lookup_snoc_snoc;
  try congruence.

(** C2.  After a successful answer [opt] of the solver (with one component
    for each key of [init_guess]), the call returns a new dictionary that
    holds the merged parameters; the mass is re-evaluated at these as
    [exp(logCDF(upper)) - exp(logCDF(lower))]; the warning is emitted when
    this mass is 0.01 or more away from [mass], and no warning is emitted
    otherwise.  The warning does not change the result. *)
Theorem validation_warns_and_returns (B : Backend) (D : Distribution)
    (lower upper : float) (init_guess : loc) (mass : float)
    (fixed_params : option loc) (h : list pydict) (guess : pydict)
    (fixed : list (string * float)) (r : result loc) (s' : state)
    (f : list float -> result float) (x0 : list pyval) (j : jacobian)
    (opt : OptimizeResult)
    (logcdf_lower logcdf_upper : list (string * float) -> float) :
  h !! init_guess = Some guess ->
  fixed_at h fixed_params fixed ->
  call (find_optim_prior B D lower upper init_guess mass fixed_params) h
  = (r, s') ->
  In (EvLeastSquares f x0 j) (trace s') ->
  least_squares B f x0 j = Ok opt ->
  opt_success opt = true ->
  length (opt_x opt) = length guess ->
  logcdf D lower = Ok logcdf_lower ->
  logcdf D upper = Ok logcdf_upper ->
  let opt_params := assignment (dict_keys guess) (opt_x opt) fixed in
  let mass_in_interval :=
    achieved_mass (math_exp B) logcdf_lower logcdf_upper opt_params in
  r = Ok (S (length h)) /\
  heap s' !! S (length h) = Some (float_dict opt_params) /\
  ((0.01 <=? abs (mass_in_interval - mass))%float = true ->
   In (EvWarn mass_in_interval lower upper mass) (trace s')) /\
  ((0.01 <=? abs (mass_in_interval - mass))%float = false ->
   forall a b c d, ~ In (EvWarn a b c d) (trace s')).
Proof.
  intros Hguess Hfixed H Hin Hls Hok Hlen Hlo Hup opt_params mass_in_interval.
  subst opt_params mass_in_interval.
  destruct fixed_params as [l|]; simpl in Hfixed;
    [|subst fixed].
  all: all_paths H Hin; rewrite Hls in *; simplify_eq; rewrite ?Hok in *;
      simplify_eq/=; validate Hlen.
  all: split_and!; try done.
  all: try (intros Hc; first [congruence | tauto]).
  all: try (intros Hc ? ? ? ? Hw; first [congruence | trace_in Hw]).
Qed.

(** The solver answers [mu = 4]: 95.08% of the mass, no warning.  It answers
    [mu = 6]: 87.34% of the mass, a warning, and the same kind of result. *)
Lemma validation_warns_and_returns_witness :
  (call (find_optim_prior (stub_backend no_gradient (converged [4%float]))
           Gumbel 0 10 0 0.95 (Some 1)) example_heap
   = (Ok 4,
      {| heap := example_final_heap 4;
         trace := example_trace Jac2Point ++ example_validation 4 |})) /\
  (call (find_optim_prior (stub_backend no_gradient (converged [6%float]))
           Gumbel 0 10 0 0.95 (Some 1)) example_heap
   = (Ok 4,
      {| heap := example_final_heap 6;
         trace := example_trace Jac2Point ++ example_validation 6
                  ++ [EvWarn 0.87342301660087607 0 10 0.95] |})) /\
  In (EvWarn 0.87342301660087607 0 10 0.95)
    (example_trace Jac2Point ++ example_validation 6
     ++ [EvWarn 0.87342301660087607 0 10 0.95]) /\
  (forall a b c d,
     ~ In (EvWarn a b c d) (example_trace Jac2Point ++ example_validation 4)).
Proof.
  split; [reflexivity|]. split; [reflexivity|].
  pose proof
    (validation_warns_and_returns
       (stub_backend no_gradient (converged [6%float]))
       Gumbel 0 10 0 0.95 (Some 1) example_heap
       (float_dict [("mu", 5%float)]) [("beta", 2%float)]
       (Ok 4)
       {| heap := example_final_heap 6;
          trace := example_trace Jac2Point ++ example_validation 6
                   ++ [EvWarn 0.87342301660087607 0 10 0.95] |}
       example_residual [PyFloat 5] Jac2Point
       {| opt_x := [6%float]; opt_success := true |}
       (gumbel_logcdf 0) (gumbel_logcdf 10)) as Hwarn.
  pose proof
    (validation_warns_and_returns
       (stub_backend no_gradient (converged [4%float]))
       Gumbel 0 10 0 0.95 (Some 1) example_heap
       (float_dict [("mu", 5%float)]) [("beta", 2%float)]
       (Ok 4)
       {| heap := example_final_heap 4;
          trace := example_trace Jac2Point ++ example_validation 4 |}
       example_residual [PyFloat 5] Jac2Point
       {| opt_x := [4%float]; opt_success := true |}
       (gumbel_logcdf 0) (gumbel_logcdf 10)) as Hquiet.
  split.
  - apply Hwarn; try reflexivity. simpl. tauto.
  - apply Hquiet; try reflexivity. simpl. tauto.
Defined.

(** ** The log-CDF and the gradient *)

(** C4.  The docstring asks for a family with a [logcdf] method, and lines
    96-100 hold the error that names a family without one.  The handler of
    line 95 is for [AttributeError], but for such a family [pm.logcdf] raises
    [NotImplementedError]: at [NoLogcdf] the call stops at the lower bound,
    before the solver, with the exception of the dispatch and not with the
    error that names the family. *)
Lemma missing_logcdf_is_not_reported :
  logcdf NoLogcdf 0 = Err logcdf_not_implemented /\
  call (find_optim_prior (stub_backend no_gradient (converged [4%float]))
          NoLogcdf 0 10 0 0.95 (Some 1)) example_heap
  = (Err logcdf_not_implemented,
     {| heap := example_heap ++ [example_params_to_optim];
        trace := [EvDist example_kwargs; EvLogcdf 0] |}) /\
  solver_calls [EvDist example_kwargs; EvLogcdf 0] = 0 /\
  Err (A := loc) logcdf_not_implemented
  <> Err (AttributeError (no_logcdf_message NoLogcdf)).
Proof.
  split; [reflexivity|]. split; [reflexivity|]. split; [reflexivity|].
  discriminate.
Qed.

(** C5.  When the gradient was asked for and raised, whatever the exception,
    the next thing the call does is to invoke the solver, with ["2-point"]
    for a Jacobian, and it does so once.  The outcome of the call is then the
    solver's: its exception, the optimization-failed error when it did not
    converge, and a result when it converged (to a vector with one component
    for each key of [init_guess]). *)
Theorem gradient_failure_falls_back (B : Backend) (D : Distribution)
    (lower upper : float) (init_guess : loc) (mass : float)
    (fixed_params : option loc) (h : list pydict) (guess : pydict)
    (fixed : list (string * float)) (r : result loc) (s' : state)
    (cost : tensor) (e : exn) :
  h !! init_guess = Some guess ->
  fixed_at h fixed_params fixed ->
  call (find_optim_prior B D lower upper init_guess mass fixed_params) h
  = (r, s') ->
  In (EvGradient cost) (trace s') ->
  gradient B cost = Err e ->
  exists f x0 before after,
    trace s'
    = before ++ [EvGradient cost; EvLeastSquares f x0 Jac2Point] ++ after /\
    solver_calls (trace s') = 1 /\
    match least_squares B f x0 Jac2Point with
    | Err e' => r = Err e'
    | Ok opt =>
        if opt_success opt
        then length (opt_x opt) = length guess -> exists l, r = Ok l
        else r = Err (ValueError optimization_failed_message)
    end.
Proof.
  intros Hguess Hfixed H Hin Hfail.
  destruct fixed_params as [l|]; simpl in Hfixed; [|subst fixed].
  all: all_paths H Hin; rewrite Hfail in *; simplify_eq.
  all: eexists _, _, [_; _; _; _], _; split; [reflexivity|].
  all: split; [reflexivity|].
  all: match goal with Hls : least_squares _ _ _ _ = _ |- _ => rewrite Hls end.
  all: try match goal with Hs : negb (opt_success _) = _ |- _ =>
         apply (f_equal negb) in Hs; rewrite negb_involutive in Hs; rewrite Hs end.
  all: try reflexivity.
  all: intros Hlen; validate Hlen; eauto.
Qed.

Lemma gradient_failure_falls_back_witness :
  exists f x0 before after,
    example_trace Jac2Point ++ example_validation 4
    = before ++ [EvGradient example_cdf_error; EvLeastSquares f x0 Jac2Point]
      ++ after /\
    solver_calls (example_trace Jac2Point ++ example_validation 4) = 1 /\
    match least_squares (stub_backend no_gradient (converged [4%float]))
            f x0 Jac2Point with
    | Err e' => Ok (A := loc) 4 = Err e'
    | Ok opt =>
        if opt_success opt
        then length (opt_x opt) = 1 -> exists l, Ok (A := loc) 4 = Ok l
        else Ok (A := loc) 4 = Err (ValueError optimization_failed_message)
    end.
Proof.
  apply (gradient_failure_falls_back
           (stub_backend no_gradient (converged [4%float]))
           Gumbel 0 10 0 0.95 (Some 1) example_heap
           (float_dict [("mu", 5%float)]) [("beta", 2%float)]
           (Ok 4)
           {| heap := example_final_heap 4;
              trace := example_trace Jac2Point ++ example_validation 4 |}
           example_cdf_error (NotImplementedError "gradient")).
  - reflexivity.
  - reflexivity.
  - reflexivity.
  - simpl. tauto.
  - reflexivity.
Defined.

(** ** The result *)

(** C7, as the code has it.  On success, with a solution that has one
    component for each key of [init_guess], the call returns a dictionary
    whose keys are those of [init_guess] and those of [fixed_params]; a key of
    [init_guess] that is not a key of [fixed_params] maps to the component of
    the solution at its position, and every entry of [fixed_params] is in the
    result with the caller's value. *)
Theorem result_is_merged_parameters (B : Backend) (D : Distribution)
    (lower upper : float) (init_guess : loc) (mass : float)
    (fixed_params : option loc) (h : list pydict) (guess : pydict)
    (fixed : list (string * float)) (l : loc) (s' : state)
    (f : list float -> result float) (x0 : list pyval) (j : jacobian)
    (opt : OptimizeResult) :
  h !! init_guess = Some guess ->
  fixed_at h fixed_params fixed ->
  NoDup (dict_keys guess) ->
  NoDup (dict_keys fixed) ->
  call (find_optim_prior B D lower upper init_guess mass fixed_params) h
  = (Ok l, s') ->
  In (EvLeastSquares f x0 j) (trace s') ->
  least_squares B f x0 j = Ok opt ->
  length (opt_x opt) = length guess ->
  exists result : list (string * float),
    heap s' !! l = Some (float_dict result) /\
    (forall k,
       k ∈ dict_keys result <-> k ∈ dict_keys guess \/ k ∈ dict_keys fixed) /\
    (forall i k x,
       dict_keys guess !! i = Some k -> opt_x opt !! i = Some x ->
       dict_get k fixed = None -> dict_get k result = Some x) /\
    (forall k v, dict_get k fixed = Some v -> dict_get k result = Some v).
Proof.
  intros Hguess Hfixed Hkeys Hfkeys H Hin Hls Hlen.
  assert (length (opt_x opt) = length (dict_keys guess)) as Hlen'
    by (unfold dict_keys; by rewrite length_fmap).
  exists (assignment (dict_keys guess) (opt_x opt) fixed).
  split; [|split_and!].
  - destruct fixed_params as [fp|]; simpl in Hfixed; [|subst fixed];
      all_paths H Hin; rewrite Hls in *; simplify_eq; validate Hlen; done.
  - intros k. by apply assignment_keys.
  - intros i k x Hi Hx Hk. rewrite assignment_get, Hk by done.
    by eapply dict_get_zip.
  - intros k v Hk. by apply assignment_get_fixed.
Qed.


Lemma result_is_merged_parameters_witness :
  exists result : list (string * float),
    example_final_heap 4 !! 4 = Some (float_dict result) /\
    (forall k, k ∈ dict_keys result <-> k ∈ ["mu"] \/ k ∈ ["beta"]) /\
    (forall i k x,
       ["mu"] !! i = Some k -> [4%float] !! i = Some x ->
       dict_get k [("beta", 2%float)] = None -> dict_get k result = Some x) /\
    (forall k v,
       dict_get k [("beta", 2%float)] = Some v -> dict_get k result = Some v).
Proof.
  apply (result_is_merged_parameters
           (stub_backend no_gradient (converged [4%float]))
           Gumbel 0 10 0 0.95 (Some 1) example_heap
           (float_dict [("mu", 5%float)]) [("beta", 2%float)]
           4
           {| heap := example_final_heap 4;
              trace := example_trace Jac2Point ++ example_validation 4 |}
           example_residual [PyFloat 5] Jac2Point
           {| opt_x := [4%float]; opt_success := true |}).
  - reflexivity.
  - reflexivity.
  - by apply (bool_decide_unpack (NoDup _)); vm_compute.
  - by apply (bool_decide_unpack (NoDup _)); vm_compute.
  - reflexivity.
  - simpl. tauto.
  - reflexivity.
  - reflexivity.
Defined.

(** C7, as it is stated, fails when a key is in both dictionaries:
    ["beta"] is the second key of [init_guess], the second component of the
    solution is 2.5, and the result maps ["beta"] to the fixed value 2. *)
Lemma result_key_in_both_counterexample :
  call (find_optim_prior (stub_backend no_gradient (converged [4; 2.5]%float))
          Gumbel 0 10 2 0.95 (Some 1)) example_heap
  = (Ok 4,
     {| heap := example_final_heap 4;
        trace := example_overlap_trace ++ example_validation 4 |}) /\
  example_final_heap 4 !! 4 = Some (example_opt_params 4) /\
  dict_keys (float_dict [("mu", 5%float); ("beta", 3%float)]) !! 1
  = Some "beta" /\
  [4; 2.5]%float !! 1 = Some 2.5%float /\
  dict_get "beta" (example_opt_params 4) <> Some (PyFloat 2.5).
Proof.
  split_and!; try reflexivity.
  intros Heq.
  apply (f_equal (fun o => match o with
                           | Some (PyFloat x) => PrimFloat.eqb x 2
                           | _ => false
                           end)) in Heq.
  vm_compute in Heq. discriminate.
Qed.

(** C9.  When the key [k], at position [i] of [init_guess], is also a key of
    [fixed_params] with the value [v]: every distribution the call builds
    gets the constant [v] for [k]; the residual handed to the solver does not
    change when the component [i] of its argument does; and the dictionary
    that is returned maps [k] to [v]. *)
Theorem fixed_value_wins (B : Backend) (D : Distribution)
    (lower upper : float) (init_guess : loc) (mass : float)
    (fixed_params : option loc) (h : list pydict) (guess : pydict)
    (fixed : list (string * float)) (r : result loc) (s' : state)
    (i : nat) (k : string) (v : float) :
  h !! init_guess = Some guess ->
  fixed_at h fixed_params fixed ->
  NoDup (dict_keys guess) ->
  NoDup (dict_keys fixed) ->
  dict_keys guess !! i = Some k ->
  dict_get k fixed = Some v ->
  call (find_optim_prior B D lower upper init_guess mass fixed_params) h
  = (r, s') ->
  (forall kwargs,
     In (EvDist kwargs) (trace s') -> dict_get k kwargs = Some (Constant v)) /\
  (forall f x0 j x y,
     In (EvLeastSquares f x0 j) (trace s') -> length x = length guess ->
     f (<[i := y]> x) = f x) /\
  (forall l,
     r = Ok l ->
     exists result, heap s' !! l = Some result /\
                    dict_get k result = Some (PyFloat v)).
Proof.
  intros Hguess Hfixed Hkeys Hfkeys Hi Hk H.
  destruct fixed_params as [fp|]; simpl in Hfixed; [|by subst fixed].
  assert (forall xs,
    dict_get k (map (fun kv => (kv.1, as_tensor_variable kv.2))
                  (float_dict (assignment (dict_keys guess) xs fixed)))
    = Some (Constant v)) as Hopt.
  { intros xs. rewrite dict_get_kwargs, dict_get_float_dict.
    by erewrite assignment_get_fixed. }
  assert (forall d,
    dict_get k (map (fun kv => (kv.1, as_tensor_variable kv.2))
                  (dict_merge d (float_dict fixed)))
    = Some (Constant v)) as Hsym.
  { intros d. rewrite dict_get_kwargs, dict_get_merge, dict_get_float_dict, Hk;
      [done|]. by rewrite dict_keys_float_dict. }
  split_and!.
  - intros kwargs Hin. all_paths H Hin; rewrite ?opt_params_float; auto.
  - intros f x0 j x y Hin Hlen.
    assert (length x = length (dict_keys guess)) as Hlen'
      by (unfold dict_keys; by rewrite length_fmap).
    all_paths H Hin.
    all: erewrite !eval_cdf_error;
      [|rewrite <- Hlen; apply eval_kwargs_params_to_optim
       |rewrite <- Hlen, <- (length_insert x i y);
        apply eval_kwargs_params_to_optim].
    all: by erewrite assignment_insert.
  - intros l ->. run_in H; simplify_eq; cbn [heap].
    all: rewrite length_snoc, lookup_snoc_snoc, opt_params_float.
    all: eexists; split; [done|].
    all: rewrite dict_get_float_dict; by erewrite assignment_get_fixed.
Qed.

Lemma fixed_value_wins_witness :
  (forall kwargs,
     In (EvDist kwargs) (example_overlap_trace ++ example_validation 4) ->
     dict_get "beta" kwargs = Some (Constant 2)) /\
  (forall f x0 j x y,
     In (EvLeastSquares f x0 j)
       (example_overlap_trace ++ example_validation 4) ->
     length x = 2 -> f (<[1 := y]> x) = f x) /\
  (forall l,
     Ok 4 = Ok l ->
     exists result, example_final_heap 4 !! l = Some result /\
                    dict_get "beta" result = Some (PyFloat 2)).
Proof.
  apply (fixed_value_wins
           (stub_backend no_gradient (converged [4; 2.5]%float))
           Gumbel 0 10 2 0.95 (Some 1) example_heap
           (float_dict [("mu", 5%float); ("beta", 3%float)])
           [("beta", 2%float)]
           (Ok 4)
           {| heap := example_final_heap 4;
              trace := example_overlap_trace ++ example_validation 4 |}
           1 "beta" 2%float).
  - reflexivity.
  - reflexivity.
  - by apply (bool_decide_unpack (NoDup _)); vm_compute.
  - by apply (bool_decide_unpack (NoDup _)); vm_compute.
  - reflexivity.
  - reflexivity.
  - reflexivity.
Defined.

(** ** The caller's dictionaries *)

Section Frames.
Context (h0 : list pydict).

Lemma frames_ret {A : Type} (a : A) : frames h0 (ret a) (fun _ => True).
Proof. by intros s Hs. Qed.

Lemma frames_raise {A : Type} (e : exn) (post : A -> Prop) :
  frames h0 (raise e) post.
Proof. by intros s Hs. Qed.

Lemma frames_bind {A B : Type} (m : M A) (k : A -> M B)
    (mid : A -> Prop) (post : B -> Prop) :
  frames h0 m mid ->
  (forall a, mid a -> frames h0 (k a) post) ->
  frames h0 (bind m k) post.
Proof.
  intros Hm Hk s Hs. unfold bind.
  destruct (Hm s Hs) as [Hs' Hmid]. destruct (m s) as [[a|e] s']; simpl in *.
  - by apply Hk; [apply Hmid|].
  - by split.
Qed.

Lemma frames_try_except {A : Type} (body : M A)
    (handler : exn -> option (M A)) (post : A -> Prop) :
  frames h0 body post ->
  (forall e h, handler e = Some h -> frames h0 h post) ->
  frames h0 (try_except body handler) post.
Proof.
  intros Hbody Hhandler s Hs. unfold try_except.
  destruct (Hbody s Hs) as [Hs' Hpost].
  destruct (body s) as [[a|e] s']; simpl in *; [by split|].
  destruct (handler e) as [h|] eqn:He; [|by split].
  by apply (Hhandler e h).
Qed.

Lemma frames_extern {A : Type} (ev : event) (r : result A) :
  frames h0 (extern ev r) (fun _ => True).
Proof. by intros s Hs. Qed.

Lemma frames_deref (l : loc) : frames h0 (deref l) (fun _ => True).
Proof. intros s Hs. unfold deref. by destruct (heap s !! l). Qed.

(** A new object lies beyond the objects of [h0]. *)
Lemma frames_alloc (d : pydict) :
  frames h0 (alloc d) (fun l => length h0 <= l).
Proof.
  intros s Hs. unfold alloc. simpl. split.
  - by apply prefix_app_r.
  - intros l [= <-]. by apply prefix_length.
Qed.

(** An update of an object beyond those of [h0] leaves them as they are. *)
Lemma frames_dict_update (target other : loc) :
  length h0 <= target ->
  frames h0 (dict_update target other) (fun _ => True).
Proof.
  intros Htarget s Hs. unfold dict_update, bind, deref.
  destruct (heap s !! target) as [d|]; [|by split].
  destruct (heap s !! other) as [o|]; [|by split].
  simpl. split; [|done].
  destruct Hs as [fresh ->].
  rewrite insert_app_r_alt by done. by apply prefix_app_r.
Qed.

Lemma frames_tensor_eval (B : Backend) (t : tensor) :
  frames h0 (tensor_eval B t) (fun _ => True).
Proof. by intros s Hs. Qed.

Lemma frames_dist (D : Distribution) (params : loc) :
  frames h0 (dist D params) (fun _ => True).
Proof.
  unfold dist. eapply frames_bind; [apply frames_deref|].
  intros d _. apply frames_extern.
Qed.

(** One rule of the above, chosen by the shape of the statement. *)
Ltac frames_step :=
  first
    [ apply frames_ret
    | apply frames_raise
    | apply frames_extern
    | apply frames_deref
    | apply frames_alloc
    | apply frames_dist
    | apply frames_tensor_eval
    | apply frames_dict_update; assumption
    | eapply frames_bind; [|intros ? ?]
    | apply frames_try_except; [|intros ? ? ?; simplify_eq]
    | match goal with
      | |- frames _ (match ?x with _ => _ end) _ => destruct x
      | H : (if ?c then _ else _) = Some _ |- _ => destruct c; simplify_eq
      end ].

Lemma frames_find_optim_prior (B : Backend) (D : Distribution)
    (lower upper : float) (init_guess : loc) (mass : float)
    (fixed_params : option loc) :
  frames h0 (find_optim_prior B D lower upper init_guess mass fixed_params)
    (fun _ => True).
Proof.
  unfold find_optim_prior, py_assert, pm_logcdf, aesara_function, warn.
  repeat frames_step.
Qed.
End Frames.

(** C10.  Whatever the call does, returning or raising, a dictionary that
    was in the heap when it started (so [init_guess] and [fixed_params], also
    when both are the same object) has the same items when it ends: the two
    updates are made to objects the call has created. *)
Theorem arguments_not_mutated (B : Backend) (D : Distribution)
    (lower upper : float) (init_guess : loc) (mass : float)
    (fixed_params : option loc) (s : state) (l : loc) (d : pydict) :
  heap s !! l = Some d ->
  heap (find_optim_prior B D lower upper init_guess mass fixed_params s).2 !! l
  = Some d.
Proof.
  intros Hl.
  destruct (frames_find_optim_prior (heap s) B D lower upper init_guess mass
              fixed_params s) as [Hprefix _]; [done|].
  by eapply prefix_lookup_Some.
Qed.

Lemma arguments_not_mutated_witness :
  let s' :=
    (find_optim_prior (stub_backend no_gradient (converged [4%float]))
       Gumbel 0 10 0 0.95 (Some 1)
       {| heap := example_heap; trace := [] |}).2 in
  heap s' !! 0 = Some (float_dict [("mu", 5%float)]) /\
  heap s' !! 1 = Some (float_dict [("beta", 2%float)]).
Proof.
  cbv zeta.
  split;
    apply (arguments_not_mutated
             (stub_backend no_gradient (converged [4%float]))
             Gumbel 0 10 0 0.95 (Some 1)
             {| heap := example_heap; trace := [] |});
    reflexivity.
Defined.

(** * Further properties of [find_optim_prior] *)

(** ** The solver call *)

(** X1.  On every path the solver is invoked at most once, and the starting
    point it is given is the list of the values of [init_guess], in the order
    of its keys. *)
Theorem solver_called_once_from_init_guess (B : Backend) (D : Distribution)
    (lower upper : float) (init_guess : loc) (mass : float)
    (fixed_params : option loc) (h : list pydict) (guess : pydict)
    (r : result loc) (s' : state) :
  h !! init_guess = Some guess ->
  call (find_optim_prior B D lower upper init_guess mass fixed_params) h
  = (r, s') ->
  solver_calls (trace s') <= 1 /\
  forall f x0 j,
    In (EvLeastSquares f x0 j) (trace s') -> x0 = dict_values guess.
Proof.
  intros Hguess H.
  destruct fixed_params as [fixed|]; run_in H; simplify_eq; cbn [trace heap].
  all: split; [cbv [solver_calls]; cbn; lia|].
  all: intros f x0 j Hin; by trace_in Hin.
Qed.

Lemma solver_called_once_from_init_guess_witness :
  solver_calls (trace (example_final_state 4)) <= 1 /\
  forall f x0 j,
    In (EvLeastSquares f x0 j) (trace (example_final_state 4)) ->
    x0 = dict_values (float_dict [("mu", 5%float)]).
Proof.
  apply (solver_called_once_from_init_guess
           (stub_backend no_gradient (converged [4%float]))
           Gumbel 0 10 0 0.95 (Some 1) example_heap
           (float_dict [("mu", 5%float)]) (Ok 4) (example_final_state 4)).
  - reflexivity.
  - reflexivity.
Defined.

(** X2.  When the gradient was asked for and it returned a callable, the
    next thing the call does is to invoke the solver with that callable for a
    Jacobian, and no invocation of the solver has another one. *)
Theorem gradient_success_passes_jacobian (B : Backend) (D : Distribution)
    (lower upper : float) (init_guess : loc) (mass : float)
    (fixed_params : option loc) (h : list pydict)
    (r : result loc) (s' : state) (cost : tensor)
    (jac : list float -> result (list float)) :
  call (find_optim_prior B D lower upper init_guess mass fixed_params) h
  = (r, s') ->
  In (EvGradient cost) (trace s') ->
  gradient B cost = Ok jac ->
  exists f x0 before after,
    trace s'
    = before ++ [EvGradient cost; EvLeastSquares f x0 (JacCallable jac)]
      ++ after /\
    forall f' x0' j',
      In (EvLeastSquares f' x0' j') (trace s') -> j' = JacCallable jac.
Proof.
  intros H Hin Hjac.
  destruct fixed_params as [fixed|]; all_paths H Hin;
    rewrite Hjac in *; simplify_eq.
  all: eexists _, _, [_; _; _; _], _; split; [reflexivity|].
  all: intros f' x0' j' Hin'; by trace_in Hin'.
Qed.

Lemma gradient_success_passes_jacobian_witness :
  exists f x0 before after,
    example_trace (JacCallable example_jac) ++ example_validation 4
    = before
      ++ [EvGradient example_cdf_error;
          EvLeastSquares f x0 (JacCallable example_jac)]
      ++ after /\
    forall f' x0' j',
      In (EvLeastSquares f' x0' j')
        (example_trace (JacCallable example_jac) ++ example_validation 4) ->
      j' = JacCallable example_jac.
Proof.
  apply (gradient_success_passes_jacobian
           (stub_backend (Ok example_jac) (converged [4%float]))
           Gumbel 0 10 0 0.95 (Some 1) example_heap (Ok 4)
           {| heap := example_final_heap 4;
              trace := example_trace (JacCallable example_jac)
                       ++ example_validation 4 |}
           example_cdf_error example_jac).
  - reflexivity.
  - simpl. tauto.
  - reflexivity.
Defined.

(** X3.  The solver is invoked only after every check has passed: [mass] is
    strictly between 0.01 and 0.99, every declared parameter is scalar, and
    the log-CDF was built at both bounds. *)
Theorem solver_call_implies_preconditions (B : Backend) (D : Distribution)
    (lower upper : float) (init_guess : loc) (mass : float)
    (fixed_params : option loc) (h : list pydict)
    (r : result loc) (s' : state)
    (f : list float -> result float) (x0 : list pyval) (j : jacobian) :
  call (find_optim_prior B D lower upper init_guess mass fixed_params) h
  = (r, s') ->
  In (EvLeastSquares f x0 j) (trace s') ->
  (0.01 <? mass)%float = true /\ (mass <? 0.99)%float = true /\
  Forall (fun n => n = 0%Z) (ndims_params D) /\
  (exists cdf, logcdf D lower = Ok cdf) /\
  (exists cdf, logcdf D upper = Ok cdf).
Proof.
  intros H Hin.
  assert (any_non_scalar D = false ->
          Forall (fun n => n = 0%Z) (ndims_params D)) as Hscalar.
  { unfold any_non_scalar. intros Hany. apply Forall_forall. intros n Hn.
    destruct (Z.eqb_spec n 0) as [|Hne]; [done|].
    assert (existsb (fun n => negb (n =? 0)%Z) (ndims_params D) = true) as Ht;
      [|congruence].
    apply existsb_exists. exists n. split; [by apply list_elem_of_In|].
    by apply negb_true_iff, Z.eqb_neq. }
  destruct fixed_params as [fixed|]; all_paths H Hin.
  all: match goal with Hm : _ && _ = true |- _ =>
         apply andb_true_iff in Hm as [? ?] end.
  all: eauto 10.
Qed.

Lemma solver_call_implies_preconditions_witness :
  (0.01 <? 0.95)%float = true /\ (0.95 <? 0.99)%float = true /\
  Forall (fun n => n = 0%Z) (ndims_params Gumbel) /\
  (exists cdf, logcdf Gumbel 0 = Ok cdf) /\
  (exists cdf, logcdf Gumbel 10 = Ok cdf).
Proof.
  apply (solver_call_implies_preconditions
           (stub_backend no_gradient (not_converged [5%float]))
           Gumbel 0 10 0 0.95 (Some 1) example_heap
           (Err (ValueError optimization_failed_message))
           example_failed_state
           example_residual [PyFloat 5] Jac2Point).
  - reflexivity.
  - simpl. tauto.
Defined.

(** X4.  A call that returns a dictionary has invoked the solver exactly
    once, and the solver answered with [success] set. *)
Theorem result_implies_convergence (B : Backend) (D : Distribution)
    (lower upper : float) (init_guess : loc) (mass : float)
    (fixed_params : option loc) (h : list pydict)
    (l : loc) (s' : state) :
  call (find_optim_prior B D lower upper init_guess mass fixed_params) h
  = (Ok l, s') ->
  solver_calls (trace s') = 1 /\
  exists f x0 j opt,
    In (EvLeastSquares f x0 j) (trace s') /\
    least_squares B f x0 j = Ok opt /\ opt_success opt = true.
Proof.
  intros H.
  destruct fixed_params as [fixed|]; run_in H; simplify_eq; cbn [trace heap].
  all: split; [reflexivity|].
  all: match goal with Hs : negb (opt_success _) = false |- _ =>
         apply negb_false_iff in Hs end.
  all: eexists _, _, _, _; split; [|split; [eassumption|eassumption]].
  all: cbn [app In]; tauto.
Qed.

Lemma result_implies_convergence_witness :
  solver_calls (trace (example_final_state 4)) = 1 /\
  exists f x0 j opt,
    In (EvLeastSquares f x0 j) (trace (example_final_state 4)) /\
    least_squares (stub_backend no_gradient (converged [4%float])) f x0 j
    = Ok opt /\
    opt_success opt = true.
Proof.
  apply (result_implies_convergence
           (stub_backend no_gradient (converged [4%float]))
           Gumbel 0 10 0 0.95 (Some 1) example_heap 4
           (example_final_state 4)).
  reflexivity.
Defined.

(** X5.  An exception raised by the solver itself reaches the caller as it
    is: no dictionary of results is built and no warning is emitted. *)
Theorem solver_exception_propagates (B : Backend) (D : Distribution)
    (lower upper : float) (init_guess : loc) (mass : float)
    (fixed_params : option loc) (h : list pydict)
    (r : result loc) (s' : state)
    (f : list float -> result float) (x0 : list pyval) (j : jacobian)
    (e : exn) :
  call (find_optim_prior B D lower upper init_guess mass fixed_params) h
  = (r, s') ->
  In (EvLeastSquares f x0 j) (trace s') ->
  least_squares B f x0 j = Err e ->
  r = Err e /\
  (exists params_to_optim, heap s' = h ++ [params_to_optim]) /\
  forall a b c d, ~ In (EvWarn a b c d) (trace s').
Proof.
  intros H Hin Hraise.
  destruct fixed_params as [fixed|]; all_paths H Hin;
    rewrite Hraise in *; simplify_eq.
  all: split_and!; [done|eauto|].
  all: intros ? ? ? ? Hw; by trace_in Hw.
Qed.

Lemma solver_exception_propagates_witness :
  call (find_optim_prior (stub_backend no_gradient (Err solver_error))
          Gumbel 0 10 0 0.95 (Some 1)) example_heap
  = (Err solver_error, example_failed_state) /\
  forall a b c d, ~ In (EvWarn a b c d) (trace example_failed_state).
Proof.
  split; [reflexivity|].
  apply (solver_exception_propagates
           (stub_backend no_gradient (Err solver_error))
           Gumbel 0 10 0 0.95 (Some 1) example_heap
           (Err solver_error) example_failed_state
           example_residual [PyFloat 5] Jac2Point solver_error).
  - reflexivity.
  - simpl. tauto.
  - reflexivity.
Defined.

(** ** The returned dictionary *)

(** X6.  The dictionary that is returned is a new object: its address held
    nothing when the call started, so it is neither [init_guess] nor
    [fixed_params], and the call has created two dictionaries in all. *)
Theorem result_is_new_object (B : Backend) (D : Distribution)
    (lower upper : float) (init_guess : loc) (mass : float)
    (fixed_params : option loc) (h : list pydict)
    (l : loc) (s' : state) :
  call (find_optim_prior B D lower upper init_guess mass fixed_params) h
  = (Ok l, s') ->
  h !! l = None /\
  exists params_to_optim opt_params,
    heap s' = h ++ [params_to_optim; opt_params] /\
    heap s' !! l = Some opt_params.
Proof.
  intros H.
  destruct fixed_params as [fixed|]; run_in H; simplify_eq; cbn [trace heap].
  all: rewrite length_snoc.
  all: split; [apply lookup_ge_None; lia|].
  all: eexists _, _; rewrite <- (assoc_L (++)); split; [reflexivity|].
  all: rewrite (assoc_L (++)); apply lookup_snoc_snoc.
Qed.

Lemma result_is_new_object_witness :
  example_heap !! 4 = None /\
  exists params_to_optim opt_params,
    heap (example_final_state 4)
    = example_heap ++ [params_to_optim; opt_params] /\
    heap (example_final_state 4) !! 4 = Some opt_params.
Proof.
  apply (result_is_new_object
           (stub_backend no_gradient (converged [4%float]))
           Gumbel 0 10 0 0.95 (Some 1) example_heap 4
           (example_final_state 4)).
  reflexivity.
Defined.

(** The keys after [d.update(other)]: those of [d], then the new ones. *)
Lemma filter_not_in_snoc (seen ks : list string) (k : string) :
  k ∉ ks ->
  filter (fun k' => k' ∉ seen ++ [k]) ks = filter (fun k' => k' ∉ seen) ks.
Proof.
  induction ks as [|k0 ks IH]; [done|].
  rewrite not_elem_of_cons. intros [Hne Hk]. rewrite !filter_cons, IH by done.
  destruct (decide (k0 ∉ seen ++ [k])) as [Hin|Hin],
           (decide (k0 ∉ seen)) as [Hin'|Hin']; try done.
  - exfalso. apply Hin'. intros Hs. apply Hin. rewrite elem_of_app. tauto.
  - exfalso. apply Hin.
    intros [?|?%list_elem_of_singleton]%elem_of_app; [done|congruence].
Qed.

Lemma dict_keys_merge_order {V : Type} (d o : list (string * V)) :
  NoDup (dict_keys o) ->
  dict_keys (dict_merge d o)
  = dict_keys d ++ filter (fun k => k ∉ dict_keys d) (dict_keys o).
Proof.
  revert d. induction o as [|[k v] o IH]; intros d Ho.
  - change (dict_merge d []) with d. by rewrite app_nil_r.
  - change (dict_keys ((k, v) :: o)) with (k :: dict_keys o) in *.
    apply NoDup_cons in Ho as [Hk Ho].
    rewrite dict_merge_cons, IH, dict_keys_setitem, filter_cons by done.
    destruct (decide (k ∈ dict_keys d)) as [Hin|Hin].
    + by rewrite decide_False by tauto.
    + rewrite decide_True by done.
      by rewrite filter_not_in_snoc, <- (assoc_L (++)).
Qed.

(** X7.  The dictionary that is returned lists the keys of [init_guess] in
    their order, then the keys of [fixed_params] that [init_guess] does not
    have, in their order. *)
Theorem result_key_order (B : Backend) (D : Distribution)
    (lower upper : float) (init_guess : loc) (mass : float)
    (fixed_params : option loc) (h : list pydict) (guess : pydict)
    (fixed : list (string * float)) (l : loc) (s' : state)
    (f : list float -> result float) (x0 : list pyval) (j : jacobian)
    (opt : OptimizeResult) :
  h !! init_guess = Some guess ->
  fixed_at h fixed_params fixed ->
  NoDup (dict_keys guess) ->
  NoDup (dict_keys fixed) ->
  call (find_optim_prior B D lower upper init_guess mass fixed_params) h
  = (Ok l, s') ->
  In (EvLeastSquares f x0 j) (trace s') ->
  least_squares B f x0 j = Ok opt ->
  length (opt_x opt) = length guess ->
  exists result : pydict,
    heap s' !! l = Some result /\
    dict_keys result
    = dict_keys guess
      ++ filter (fun k => k ∉ dict_keys guess) (dict_keys fixed).
Proof.
  intros Hguess Hfixed Hkeys Hfkeys H Hin Hls Hlen.
  assert (length (opt_x opt) = length (dict_keys guess)) as Hlen'
    by (unfold dict_keys; by rewrite length_fmap).
  exists (float_dict (assignment (dict_keys guess) (opt_x opt) fixed)).
  split.
  - destruct fixed_params as [fp|]; simpl in Hfixed; [|subst fixed];
      all_paths H Hin; rewrite Hls in *; simplify_eq; validate Hlen; done.
  - rewrite dict_keys_float_dict. unfold assignment.
    rewrite dict_keys_merge_order by done.
    rewrite dict_comprehension_NoDup by by rewrite dict_keys_zip.
    by rewrite dict_keys_zip.
Qed.

Lemma result_key_order_witness :
  exists result : pydict,
    heap (example_final_state 4) !! 4 = Some result /\
    dict_keys result
    = dict_keys (float_dict [("mu", 5%float)])
      ++ filter (fun k => k ∉ dict_keys (float_dict [("mu", 5%float)]))
           (dict_keys [("beta", 2%float)]).
Proof.
  apply (result_key_order
           (stub_backend no_gradient (converged [4%float]))
           Gumbel 0 10 0 0.95 (Some 1) example_heap
           (float_dict [("mu", 5%float)]) [("beta", 2%float)]
           4 (example_final_state 4)
           example_residual [PyFloat 5] Jac2Point
           {| opt_x := [4%float]; opt_success := true |}).
  - reflexivity.
  - reflexivity.
  - by apply (bool_decide_unpack (NoDup _)); vm_compute.
  - by apply (bool_decide_unpack (NoDup _)); vm_compute.
  - reflexivity.
  - simpl. tauto.
  - reflexivity.
  - reflexivity.
Defined.

(** ** The tolerance check *)

(** A NaN compares false with everything, also after [abs] and [-]. *)
Lemma is_nan_Prim2SF (x : float) : is_nan x = true -> Prim2SF x = S754_nan.
Proof.
  unfold is_nan. rewrite FloatAxioms.eqb_spec. unfold SFeqb.
  destruct (Prim2SF x) as [[]|[]| |[] m e]; try discriminate; simpl.
  all: try (rewrite Z.compare_refl, ?Pos.compare_cont_refl; discriminate).
  done.
Qed.

Lemma nan_is_within_tolerance (m mass tol : float) :
  is_nan m = true -> (tol <=? abs (m - mass))%float = false.
Proof.
  intros Hm%is_nan_Prim2SF.
  rewrite leb_spec, abs_spec, sub_spec, Hm. unfold SFleb.
  by destruct (Prim2SF tol).
Qed.

(** X8.  When the mass re-evaluated at the solution is not a number, the
    comparison [>= 0.01] is false: the call returns the parameters without a
    warning. *)
Theorem nan_mass_is_not_reported (B : Backend) (D : Distribution)
    (lower upper : float) (init_guess : loc) (mass : float)
    (fixed_params : option loc) (h : list pydict) (guess : pydict)
    (fixed : list (string * float)) (r : result loc) (s' : state)
    (f : list float -> result float) (x0 : list pyval) (j : jacobian)
    (opt : OptimizeResult)
    (logcdf_lower logcdf_upper : list (string * float) -> float) :
  h !! init_guess = Some guess ->
  fixed_at h fixed_params fixed ->
  call (find_optim_prior B D lower upper init_guess mass fixed_params) h
  = (r, s') ->
  In (EvLeastSquares f x0 j) (trace s') ->
  least_squares B f x0 j = Ok opt ->
  opt_success opt = true ->
  length (opt_x opt) = length guess ->
  logcdf D lower = Ok logcdf_lower ->
  logcdf D upper = Ok logcdf_upper ->
  is_nan (achieved_mass (math_exp B) logcdf_lower logcdf_upper
            (assignment (dict_keys guess) (opt_x opt) fixed)) = true ->
  r = Ok (S (length h)) /\
  forall a b c d, ~ In (EvWarn a b c d) (trace s').
Proof.
  intros Hguess Hfixed H Hin Hls Hok Hlen Hlo Hup Hnan.
  apply (nan_is_within_tolerance _ mass 0.01) in Hnan.
  destruct fixed_params as [fp|]; simpl in Hfixed; [|subst fixed].
  all: all_paths H Hin; rewrite Hls in *; simplify_eq; rewrite ?Hok in *;
    simplify_eq/=; validate Hlen.
  all: split; [done|].
  all: intros ? ? ? ? Hw; by trace_in Hw.
Qed.

Lemma nan_mass_is_not_reported_witness :
  call (find_optim_prior (stub_backend no_gradient (converged [nan]))
          Gumbel 0 10 0 0.95 (Some 1)) example_heap
  = (Ok 4, example_final_state nan) /\
  forall a b c d, ~ In (EvWarn a b c d) (trace (example_final_state nan)).
Proof.
  split; [reflexivity|].
  apply (nan_mass_is_not_reported
           (stub_backend no_gradient (converged [nan]))
           Gumbel 0 10 0 0.95 (Some 1) example_heap
           (float_dict [("mu", 5%float)]) [("beta", 2%float)]
           (Ok 4) (example_final_state nan)
           example_residual [PyFloat 5] Jac2Point
           {| opt_x := [nan]; opt_success := true |}
           (gumbel_logcdf 0) (gumbel_logcdf 10)).
  - reflexivity.
  - reflexivity.
  - reflexivity.
  - simpl. tauto.
  - reflexivity.
  - reflexivity.
  - reflexivity.
  - reflexivity.
  - reflexivity.
  - reflexivity.
Defined.

(** ** The log-CDF *)

(** X10.  When a call [pm.logcdf] at [value] (the lower or the upper bound)
    was made and raised [e], the solver was never invoked.  The handler of
    line 95 replaces an [AttributeError] by the [AttributeError] whose message
    names the family; an exception of another class reaches the caller as it
    is. *)
Theorem logcdf_failure_before_solver (B : Backend) (D : Distribution)
    (lower upper : float) (init_guess : loc) (mass : float)
    (fixed_params : option loc) (h : list pydict) (r : result loc)
    (s' : state) (value : float) (e : exn) :
  call (find_optim_prior B D lower upper init_guess mass fixed_params) h
  = (r, s') ->
  In (EvLogcdf value) (trace s') ->
  logcdf D value = Err e ->
  solver_calls (trace s') = 0 /\
  r = Err (if is_AttributeError e
           then AttributeError
                  ("You cannot use `find_optim_prior` with " +:+ dist_str D +:+
                   " -- it doesn't have a logcdf method yet." +:+ nl +:+
                   "Open an issue or, even better, a pull request on PyMC repo if you really need it.")
           else e).
Proof.
  intros H Hin Hfail.
  destruct fixed_params as [fixed|]; all_paths H Hin;
    rewrite Hfail in *; simplify_eq;
    match goal with Hc : is_AttributeError _ = _ |- _ => rewrite Hc end;
    by split.
Qed.

Lemma logcdf_failure_before_solver_witness :
  solver_calls (trace example_no_logcdf_state) = 0 /\
  Err (A := loc) logcdf_not_implemented
  = Err (if is_AttributeError logcdf_not_implemented
         then AttributeError
                ("You cannot use `find_optim_prior` with " +:+ dist_str NoLogcdf +:+
                 " -- it doesn't have a logcdf method yet." +:+ nl +:+
                 "Open an issue or, even better, a pull request on PyMC repo if you really need it.")
         else logcdf_not_implemented).
Proof.
  apply (logcdf_failure_before_solver
           (stub_backend no_gradient (converged [4%float]))
           NoLogcdf 0 10 0 0.95 (Some 1) example_heap
           (Err logcdf_not_implemented) example_no_logcdf_state
           0%float logcdf_not_implemented).
  - reflexivity.
  - simpl. tauto.
  - reflexivity.
Defined.
